(** * openyieldtables: the yield-table loader and the yield-class interpolator

    A shallow embedding of [src/openyieldtables/yieldtables.py] and of the
    request handlers of [api/v1/yieldtables.py], with the properties that the
    specification states about them.

    Conventions of the embedding.
    - A Python [float] is a value of [float]: a finite number, kept as an
      exact rational in lowest terms, an infinity, or NaN.  Binary rounding
      and overflow of finite values are not represented.
    - A Python exception is a value of [exn]; a call that may raise returns
      a [result], and statements are sequenced with [x ← m; k].
    - The two CSV files are values of [csv_file] (the header and the records
      as the [csv] module splits them); [DictReader] turns them into the
      dictionaries the code reads. *)

From Stdlib Require Import Ascii String QArith Qround Qminmax Lqa.
From stdpp Require Import base option list strings gmap.
From Equations Require Import Equations.

Local Open Scope Z_scope.

(** ** Python numbers *)

Inductive float : Type :=
  | Num (q : Q)
  | Inf (neg : bool)
  | NaN.

Definition fneg (x : float) : float :=
  match x with
  | Num q => Num (Qred (- q))
  | Inf s => Inf (negb s)
  | NaN => NaN
  end.

Definition fadd (x y : float) : float :=
  match x, y with
  | NaN, _ | _, NaN => NaN
  | Num p, Num q => Num (Qred (p + q))
  | Inf s, Num _ | Num _, Inf s => Inf s
  | Inf s, Inf s' => if Bool.eqb s s' then Inf s else NaN
  end.

Definition fsub (x y : float) : float := fadd x (fneg y).

Definition fmul (x y : float) : float :=
  match x, y with
  | NaN, _ | _, NaN => NaN
  | Num p, Num q => Num (Qred (p * q))
  | Inf s, Num q | Num q, Inf s =>
      match (q ?= 0)%Q with
      | Eq => NaN
      | Lt => Inf (negb s)
      | Gt => Inf s
      end
  | Inf s, Inf s' => Inf (xorb s s')
  end.

(** Division; a zero divisor counts as [+0.0]. *)
Definition fdiv (x y : float) : float :=
  match x, y with
  | NaN, _ | _, NaN => NaN
  | Num p, Num q =>
      if Qeq_bool q 0 then
        match (p ?= 0)%Q with
        | Eq => NaN
        | Lt => Inf true
        | Gt => Inf false
        end
      else Num (Qred (p / q))
  | Inf s, Num q => if Qle_bool 0 q then Inf s else Inf (negb s)
  | Num _, Inf _ => Num 0
  | Inf _, Inf _ => NaN
  end.

Definition isnan (x : float) : bool :=
  match x with NaN => true | _ => false end.

(** [x == y] on floats: NaN equals nothing, itself included. *)
Definition float_eqb (x y : float) : bool :=
  match x, y with
  | Num p, Num q => Qeq_bool p q
  | Inf s, Inf s' => Bool.eqb s s'
  | _, _ => false
  end.

(** [Union[int, float]], the type of a yield-class key. *)
Inductive number : Type :=
  | PyInt (z : Z)
  | PyFloat (f : float).

Definition number_to_float (n : number) : float :=
  match n with
  | PyInt z => Num (inject_Z z)
  | PyFloat f => f
  end.

(** [a == b] between ints and floats compares the exact values. *)
Definition number_eqb (a b : number) : bool :=
  float_eqb (number_to_float a) (number_to_float b).

(** ** Exceptions *)

(** What a [ValueError] of this program says. *)
Inductive value_error : Type :=
  | InvalidLiteral (s : string)
      (* int(s) or float(s) on a string that is not such a literal *)
  | NaNToInteger
      (* int(float("nan")) *)
  | TableNotFound (id : Z)
      (* f"Yield table with ID {id} not found." *)
  | ClassNotFound (yield_class : Z) (id : Z).
      (* f"Yield class {yield_class} not found in yield table {id}." *)

Inductive exn : Type :=
  | ValueError (e : value_error)
  | TypeError
  | KeyError (key : string)
  | OverflowError.

Inductive result (A : Type) : Type :=
  | Ok (a : A)
  | Raise (e : exn).
Arguments Ok {A} a.
Arguments Raise {A} e.

#[global] Instance result_ret : MRet result := @Ok.
#[global] Instance result_bind : MBind result := λ A B f m,
  match m with
  | Ok a => f a
  | Raise e => Raise e
  end.

(** ** The builtins [int] and [float] on text

    Cells are ASCII text.  Both builtins strip surrounding whitespace,
    accept a sign and allow single underscores between digits. *)

Definition is_space (c : ascii) : bool :=
  match c with
  | " " | "009" | "010" | "011" | "012" | "013" => true
  | _ => false
  end%char.

Definition digit_of (c : ascii) : option Z :=
  let n := Z.of_N (N_of_ascii c) in
  if (48 <=? n) && (n <=? 57) then Some (n - 48) else None.

Fixpoint lstrip (l : list ascii) : list ascii :=
  match l with
  | c :: l' => if is_space c then lstrip l' else l
  | [] => []
  end.

Definition strip (l : list ascii) : list ascii :=
  rev (lstrip (rev (lstrip l))).

(** The rest of a digit run of which [n] digits with value [acc] were read:
    the value and the number of digits of the whole run. *)
Fixpoint digits_from (acc : Z) (n : nat) (l : list ascii) : option (Z * nat) :=
  match l with
  | [] => Some (acc, n)
  | c :: l' =>
      match digit_of c with
      | Some d => digits_from (10 * acc + d) (S n) l'
      | None =>
          match c, l' with
          | "_"%char, c' :: l'' =>
              match digit_of c' with
              | Some d => digits_from (10 * acc + d) (S n) l''
              | None => None
              end
          | _, _ => None
          end
      end
  end.

(** A non-empty digit run. *)
Definition digits (l : list ascii) : option (Z * nat) :=
  match l with
  | c :: l' =>
      match digit_of c with
      | Some d => digits_from d 1 l'
      | None => None
      end
  | [] => None
  end.

(** A leading sign: whether it is [-], and the rest. *)
Definition sign (l : list ascii) : bool * list ascii :=
  match l with
  | "-"%char :: l' => (true, l')
  | "+"%char :: l' => (false, l')
  | _ => (false, l)
  end.

(** [int(s)] for a string [s]; [None] stands for the [ValueError]. *)
Definition py_int (s : string) : option Z :=
  let '(neg, l) := sign (strip (list_ascii_of_string s)) in
  '(v, _) ← digits l;
  Some (if neg then - v else v).

Definition to_lower (c : ascii) : ascii :=
  let n := N_of_ascii c in
  if (65 <=? n)%N && (n <=? 90)%N then ascii_of_N (n + 32) else c.

(** The text up to the first character satisfying [p], that character if
    there is one, and the text after it. *)
Fixpoint break (p : ascii → bool) (l : list ascii)
  : list ascii * option (list ascii) :=
  match l with
  | [] => ([], None)
  | c :: l' =>
      if p c then ([], Some l')
      else let '(a, b) := break p l' in (c :: a, b)
  end.

(** A possibly empty digit run. *)
Definition digits_opt (l : list ascii) : option (Z * nat) :=
  match l with
  | [] => Some (0, 0%nat)
  | _ => digits l
  end.

(** The value of [mantissa [e exponent]], where the mantissa is
    [digits [. [digits]]] or [. digits]. *)
Definition decimal (l : list ascii) : option Q :=
  let '(m, e) := break (λ c, bool_decide (to_lower c = "e"%char)) l in
  let '(i, f) := break (λ c, bool_decide (c = "."%char)) m in
  '(iv, ni) ← digits_opt i;
  '(fv, nf) ← digits_opt (default [] f);
  guard (ni + nf ≠ 0)%nat;;
  ev ← match e with
       | None => Some 0
       | Some e' =>
           let '(neg, d) := sign e' in
           '(v, _) ← digits d;
           Some (if neg then - v else v)
       end;
  Some (Qred ((inject_Z (iv * 10 ^ Z.of_nat nf + fv))
              * Qpower 10 (ev - Z.of_nat nf))).

(** [float(s)] for a string [s]; [None] stands for the [ValueError]. *)
Definition py_float (s : string) : option float :=
  let '(neg, l) := sign (strip (list_ascii_of_string s)) in
  let w := string_of_list_ascii (map to_lower l) in
  if bool_decide (w = "inf" ∨ w = "infinity") then Some (Inf neg)
  else if bool_decide (w = "nan") then Some NaN
  else q ← decimal l; Some (Num (if neg then Qred (- q) else q)).

(** [int(v)] and [float(v)] for a cell value [v], which is [None] or text. *)
Definition int_of_cell (v : option string) : result Z :=
  match v with
  | None => Raise TypeError
  | Some s =>
      match py_int s with
      | Some z => Ok z
      | None => Raise (ValueError (InvalidLiteral s))
      end
  end.

Definition float_of_cell (v : option string) : result float :=
  match v with
  | None => Raise TypeError
  | Some s =>
      match py_float s with
      | Some f => Ok f
      | None => Raise (ValueError (InvalidLiteral s))
      end
  end.

(** [int(x)] for a float [x] truncates toward zero. *)
Definition int_of_float (x : float) : result Z :=
  match x with
  | Num q => Ok (Z.quot (Qnum q) (Z.pos (Qden q)))
  | Inf _ => Raise OverflowError
  | NaN => Raise (ValueError NaNToInteger)
  end.

(** ** The CSV files and [csv.DictReader] *)

(** A semicolon-delimited file as the [csv] module splits it: the names of
    the header line and the cells of every following line. *)
Record csv_file : Type := {
  fieldnames : list string;
  records : list (list string);
}.

(** [zip(fieldnames, row)], with [restval = None] for the names that a short
    line leaves without a cell.  The cells beyond the header go under the
    key [None], which this program never reads. *)
Fixpoint zip_restval (names cells : list string) : list (string * option string) :=
  match names, cells with
  | [], _ => []
  | n :: names', [] => (n, None) :: zip_restval names' []
  | n :: names', c :: cells' => (n, Some c) :: zip_restval names' cells'
  end.

(** The dictionary of one line; a later column of the same name wins. *)
Definition row_dict (names cells : list string) : gmap string (option string) :=
  foldl (λ d kv, <[kv.1 := kv.2]> d) ∅ (zip_restval names cells).

(** The dictionaries [csv.DictReader(csv_file, delimiter=";")] yields: one
    per line, empty lines skipped. *)
Definition DictReader (f : csv_file) : list (gmap string (option string)) :=
  row_dict (fieldnames f) <$> filter (λ cells, cells ≠ []) (records f).

(** [row.get(key)], [row.get(key, default)] and [row[key]]. *)
Definition dict_get (row : gmap string (option string)) (key : string)
  : option string :=
  default None (row !! key).

Definition dict_get_default (row : gmap string (option string)) (key : string)
    (d : string) : option string :=
  default (Some d) (row !! key).

Definition dict_getitem (row : gmap string (option string)) (key : string)
  : result (option string) :=
  match row !! key with
  | Some v => Ok v
  | None => Raise (KeyError key)
  end.

(** The truth value of [row.get(key)]: neither [None] nor the empty string. *)
Definition truthy (v : option string) : bool :=
  match v with
  | Some s => negb (String.eqb s "")
  | None => false
  end.

(** [s.split(sep)] for a one-character separator. *)
Fixpoint split (sep : ascii) (s : string) : list string :=
  match s with
  | EmptyString => [EmptyString]
  | String c s' =>
      if bool_decide (c = sep) then EmptyString :: split sep s'
      else match split sep s' with
           | w :: ws => String c w :: ws
           | [] => [String c EmptyString]
           end
  end.

(** ** The models *)

Module YieldTableMeta.
Record t : Type := mk {
  id : Z;
  title : option string;
  country_codes : list string;
  type : option string;
  source : option string;
  link : option string;
  yield_class_step : option float;
  age_step : option Z;
  tree_type : option string;
  available_columns : list string;
}.
End YieldTableMeta.
Abbreviation YieldTableMeta := YieldTableMeta.t.

Record YieldClassRow : Type := {
  age : Z;
  dominant_height : option float;
  average_height : option float;
  dbh : option float;
  taper : option float;
  trees_per_ha : option float;
  basal_area : option float;
  volume_per_ha : option float;
  average_annual_age_increment : option float;
  total_growth_performance : option float;
  current_annual_increment : option float;
  mean_annual_increment : option float;
}.

Record YieldClass : Type := {
  yield_class : number;
  rows : list YieldClassRow;
}.

Record YieldTableData : Type := {
  yield_classes : list YieldClass;
}.

(** A [YieldTable] is built from the dumped fields of the metadata and
    from [data]. *)
Record YieldTable : Type := {
  meta : YieldTableMeta;
  data : YieldTableData;
}.

(** The measurement fields of a row. *)
Inductive field : Type :=
  | Dominant_height | Average_height | Dbh | Taper | Trees_per_ha
  | Basal_area | Volume_per_ha | Average_annual_age_increment
  | Total_growth_performance | Current_annual_increment
  | Mean_annual_increment.

Definition get_field (f : field) (r : YieldClassRow) : option float :=
  match f with
  | Dominant_height => dominant_height r
  | Average_height => average_height r
  | Dbh => dbh r
  | Taper => taper r
  | Trees_per_ha => trees_per_ha r
  | Basal_area => basal_area r
  | Volume_per_ha => volume_per_ha r
  | Average_annual_age_increment => average_annual_age_increment r
  | Total_growth_performance => total_growth_performance r
  | Current_annual_increment => current_annual_increment r
  | Mean_annual_increment => mean_annual_increment r
  end.

(** ** [utils] *)

(** Modelled from the spec: [utils.parse_float] is not among the sources.
    An empty, missing or non-numeric cell yields no value and never raises;
    any other cell yields the float it denotes. *)
Definition parse_float (value : option string) : option float :=
  s ← value; py_float s.

(** Whether a cell holds the integer [z]. *)
Definition cell_is (v : option string) (z : Z) : bool :=
  match int_of_cell v with
  | Ok z' => z' =? z
  | Raise _ => false
  end.

Definition structural_columns : list string := ["id"; "yield_class"; "age"].

(** Modelled from the spec: [utils.find_available_columns] is not among the
    sources.  The structural columns, then the other columns of the header,
    in its order, that hold a non-empty value in some line whose key column
    equals the key value. *)
Definition find_available_columns (f : csv_file) (key_column : string)
    (key_value : Z) : list string :=
  let matching :=
    filter (λ row, cell_is (dict_get row key_column) key_value = true)
           (DictReader f) in
  structural_columns ++
  filter (λ c, (c ∉ structural_columns)
               ∧ Exists (λ row, truthy (dict_get row c) = true) matching)
         (fieldnames f).

(** ** [yieldtables.py] *)

(** The two files the module reads. *)
Record sources : Type := {
  csv_path_meta : csv_file;
  csv_path_yield_tables : csv_file;
}.

(** The body of the loop of [get_yield_tables_meta]: the keyword arguments
    are evaluated in the order of the dictionary display, and the model is
    built from them.  The validation the model class performs is not
    represented. *)
Definition YieldTableMeta_of_row (src : sources)
    (row : gmap string (option string)) : result YieldTableMeta :=
  id ← match row !! "id" with
       | Some v => int_of_cell v
       | None => Ok 0
       end;
  let title := dict_get_default row "title" "" in
  let country_codes :=
    if truthy (dict_get row "country_codes")
    then split "," (default "" (dict_get_default row "country_codes" ""))
    else [] in
  let type := dict_get row "type" in
  let source := dict_get_default row "source" "" in
  let link := dict_get_default row "link" "" in
  yield_class_step ←
    (if truthy (dict_get row "yield_class_step")
     then v ← dict_getitem row "yield_class_step";
          f ← float_of_cell v;
          Ok (Some f)
     else Ok None);
  age_step ←
    (if truthy (dict_get row "age_step")
     then v ← dict_getitem row "age_step";
          z ← int_of_cell v;
          Ok (Some z)
     else Ok None);
  let tree_type := dict_get row "tree_type" in
  v ← dict_getitem row "id";
  key_value ← int_of_cell v;
  Ok (YieldTableMeta.mk id title country_codes type source link
        yield_class_step age_step tree_type
        (find_available_columns (csv_path_yield_tables src) "id" key_value)).

Definition get_yield_tables_meta (src : sources) : result (list YieldTableMeta) :=
  mapM (YieldTableMeta_of_row src) (DictReader (csv_path_meta src)).

(** The loop of [get_yield_table_meta]: the first element with the id, or
    the [ValueError] after the loop. *)
Fixpoint get_yield_table_meta_loop (id : Z) (yield_table_meta_list : list YieldTableMeta)
  : result YieldTableMeta :=
  match yield_table_meta_list with
  | [] => Raise (ValueError (TableNotFound id))
  | yield_table_meta :: rest =>
      if YieldTableMeta.id yield_table_meta =? id then Ok yield_table_meta
      else get_yield_table_meta_loop id rest
  end.

Definition get_yield_table_meta (src : sources) (id : Z) : result YieldTableMeta :=
  yield_table_meta_list ← get_yield_tables_meta src;
  get_yield_table_meta_loop id yield_table_meta_list.

(** [[row for row in reader if int(row["id"]) == id]]. *)
Fixpoint filtered_data (id : Z) (reader : list (gmap string (option string)))
  : result (list (gmap string (option string))) :=
  match reader with
  | [] => Ok []
  | row :: reader' =>
      v ← dict_getitem row "id";
      z ← int_of_cell v;
      rest ← filtered_data id reader';
      Ok (if z =? id then row :: rest else rest)
  end.

(** The key of a row: [int(row["yield_class"])], and on a [ValueError]
    [float(row["yield_class"])]. *)
Definition yield_class_of (row : gmap string (option string)) : result number :=
  v ← dict_getitem row "yield_class";
  match int_of_cell v with
  | Ok z => Ok (PyInt z)
  | Raise (ValueError _) => f ← float_of_cell v; Ok (PyFloat f)
  | Raise e => Raise e
  end.

Definition YieldClassRow_of (row : gmap string (option string)) : result YieldClassRow :=
  v ← dict_getitem row "age";
  age ← int_of_cell v;
  Ok {| age := age;
        dominant_height := parse_float (dict_get row "dominant_height");
        average_height := parse_float (dict_get row "average_height");
        dbh := parse_float (dict_get row "dbh");
        taper := parse_float (dict_get row "taper");
        trees_per_ha := parse_float (dict_get row "trees_per_ha");
        basal_area := parse_float (dict_get row "basal_area");
        volume_per_ha := parse_float (dict_get row "volume_per_ha");
        average_annual_age_increment :=
          parse_float (dict_get row "average_annual_age_increment");
        total_growth_performance :=
          parse_float (dict_get row "total_growth_performance");
        current_annual_increment :=
          parse_float (dict_get row "current_annual_increment");
        mean_annual_increment :=
          parse_float (dict_get row "mean_annual_increment") |}.

(** [yield_classes_dict]: the keys in insertion order, each with its rows.

    [dict_append k r d] is the effect of
    [if k not in d: d[k] = []] followed by [d[k].append(r)]: the row goes
    to the entry whose key equals [k], or to a new last entry.  A NaN key
    equals no stored key, so it always opens an entry of its own. *)
Fixpoint dict_append (k : number) (r : YieldClassRow)
    (d : list (number * list YieldClassRow)) : list (number * list YieldClassRow) :=
  match d with
  | [] => [(k, [r])]
  | (k', rs) :: d' =>
      if number_eqb k' k then (k', rs ++ [r]) :: d'
      else (k', rs) :: dict_append k r d'
  end.

(** The loop that organizes the rows into [yield_classes_dict]. *)
Fixpoint organize (filtered : list (gmap string (option string)))
    (yield_classes_dict : list (number * list YieldClassRow))
  : result (list (number * list YieldClassRow)) :=
  match filtered with
  | [] => Ok yield_classes_dict
  | row :: rest =>
      yc ← yield_class_of row;
      r ← YieldClassRow_of row;
      organize rest (dict_append yc r yield_classes_dict)
  end.

Definition YieldClass_of_item (item : number * list YieldClassRow) : YieldClass :=
  {| yield_class := item.1; rows := item.2 |}.

Definition get_yield_table (src : sources) (id : Z) : result YieldTable :=
  yield_table_meta ← get_yield_table_meta src id;
  filtered ← filtered_data id (DictReader (csv_path_yield_tables src));
  yield_classes_dict ← organize filtered [];
  Ok {| meta := yield_table_meta;
        data := {| yield_classes := YieldClass_of_item <$> yield_classes_dict |} |}.

(** The loop of [get_yield_table_of_class]. *)
Fixpoint get_yield_table_of_class_loop (id yc : Z) (l : list YieldClass)
  : result (list YieldClassRow) :=
  match l with
  | [] => Raise (ValueError (ClassNotFound yc id))
  | yield_class_data :: rest =>
      if number_eqb (yield_class yield_class_data) (PyInt yc)
      then Ok (rows yield_class_data)
      else get_yield_table_of_class_loop id yc rest
  end.

Definition get_yield_table_of_class (src : sources) (id yc : Z)
  : result (list YieldClassRow) :=
  yield_table ← get_yield_table src id;
  get_yield_table_of_class_loop id yc (yield_classes (data yield_table)).

(** [safe_float(value)] with its default [0.0], for a value that is [None]
    or a float. *)
Definition safe_float (value : option float) : float :=
  match value with
  | Some f => f
  | None => Num 0
  end.

Definition Qltb (x y : Q) : bool := negb (Qle_bool y x).

(** [np.interp(x, [xp0, xp1], [fp0, fp1])] of NumPy, for a scalar [x] and
    two integer abscissae.  A [None] among the ordinates makes the ordinates
    an object array, which the routine refuses to cast to float64.
    Otherwise: the last ordinate right of or at [xp1], the first one left of
    or at [xp0], and in between the line through the two points, computed
    from the first point, from the second one if that gives NaN, and as the
    common ordinate if both give NaN and the ordinates are equal. *)
Definition np_interp (x : float) (xp0 xp1 : Z) (fp0 fp1 : option float)
  : result float :=
  match fp0, fp1 with
  | Some y0, Some y1 =>
      Ok match x with
         | NaN => NaN
         | Inf true => y0
         | Inf false => y1
         | Num x =>
             let x0 := inject_Z xp0 in
             let x1 := inject_Z xp1 in
             if Qltb x1 x then y1
             else if Qltb x x0 then y0
             else if Qeq_bool x x1 then y1
             else if Qeq_bool x x0 then y0
             else
               let slope := fdiv (fsub y1 y0) (Num (Qred (x1 - x0))) in
               let res := fadd (fmul slope (Num (Qred (x - x0)))) y0 in
               if isnan res then
                 let res' := fadd (fmul slope (Num (Qred (x - x1)))) y1 in
                 if isnan res' && float_eqb y0 y1 then y0 else res'
               else res
         end
  | _, _ => Raise TypeError
  end.

(** The row built in the loop of [get_interpolated_yield_table]; the
    keyword arguments are evaluated in order. *)
Definition interpolate_row (target : float) (lower_yield_class upper_yield_class : Z)
    (lower_row upper_row : YieldClassRow) : result YieldClassRow :=
  let interp := np_interp target lower_yield_class upper_yield_class in
  dominant_height ←
    interp (dominant_height lower_row) (dominant_height upper_row);
  average_height ←
    interp (average_height lower_row) (average_height upper_row);
  dbh ← interp (dbh lower_row) (dbh upper_row);
  taper ← interp (taper lower_row) (taper upper_row);
  trees_per_ha ← interp (trees_per_ha lower_row) (trees_per_ha upper_row);
  basal_area ← interp (basal_area lower_row) (basal_area upper_row);
  volume_per_ha ← interp (volume_per_ha lower_row) (volume_per_ha upper_row);
  average_annual_age_increment ←
    interp (average_annual_age_increment lower_row)
           (average_annual_age_increment upper_row);
  total_growth_performance ←
    interp (total_growth_performance lower_row)
           (total_growth_performance upper_row);
  current_annual_increment ←
    interp (Some (safe_float (current_annual_increment lower_row)))
           (Some (safe_float (current_annual_increment upper_row)));
  mean_annual_increment ←
    interp (mean_annual_increment lower_row) (mean_annual_increment upper_row);
  Ok {| age := age lower_row;
        dominant_height := Some dominant_height;
        average_height := Some average_height;
        dbh := Some dbh;
        taper := Some taper;
        trees_per_ha := Some trees_per_ha;
        basal_area := Some basal_area;
        volume_per_ha := Some volume_per_ha;
        average_annual_age_increment := Some average_annual_age_increment;
        total_growth_performance := Some total_growth_performance;
        current_annual_increment := Some current_annual_increment;
        mean_annual_increment := Some mean_annual_increment |}.

(** The loop runs over [zip(lower, upper)]: the pairs by position, as long
    as both lists have an element. *)
Definition get_interpolated_yield_table (src : sources) (id : Z)
    (target_yield_class : float) : result YieldClass :=
  lower_yield_class ← int_of_float target_yield_class;
  let upper_yield_class := lower_yield_class + 1 in
  yield_table_lower_class ← get_yield_table_of_class src id lower_yield_class;
  yield_table_upper_class ← get_yield_table_of_class src id upper_yield_class;
  interpolation_table ←
    mapM (λ p, interpolate_row target_yield_class lower_yield_class
                 upper_yield_class p.1 p.2)
         (zip yield_table_lower_class yield_table_upper_class);
  Ok {| yield_class := PyFloat target_yield_class;
        rows := interpolation_table |}.

(** The ordinate the loop passes to [np.interp] for a field of a row: the
    current annual increment goes through [safe_float], the other fields are
    passed as they are. *)
Definition interp_argument (f : field) (row : YieldClassRow) : option float :=
  match f with
  | Current_annual_increment => Some (safe_float (current_annual_increment row))
  | _ => get_field f row
  end.

(** A yield class is tabulated in a table when one of its keys equals it. *)
Definition tabulated (t : YieldTable) (yc : Z) : Prop :=
  ∃ c, c ∈ yield_classes (data t) ∧ number_eqb (yield_class c) (PyInt yc) = true.

(** ** The grouping, as the specification words it *)

(** The key and the row the loop of [get_yield_table] computes from a kept
    line. *)
Definition keyed_row (row : gmap string (option string))
  : result (number * YieldClassRow) :=
  yc ← yield_class_of row;
  r ← YieldClassRow_of row;
  Ok (yc, r).

(** The rows grouped by key, worded as the specification does: the key of
    the first row opens the first group, which holds that row and then the
    later rows of an equal key, in their order; the other rows are grouped
    in the same way and follow. *)
Equations? group_by_first_seen (l : list (number * YieldClassRow))
  : list (number * list YieldClassRow) by wf (length l) lt :=
  group_by_first_seen [] := [];
  group_by_first_seen ((k, r) :: l) :=
    (k, r :: (filter (λ kr, number_eqb k kr.1 = true) l).*2)
    :: group_by_first_seen (filter (λ kr, number_eqb k kr.1 ≠ true) l).
Proof.
  simpl. apply Nat.lt_succ_r, length_filter.
Qed.

(** The distinct keys in first-seen order: a key is kept unless it equals
    one that was seen before. *)
Fixpoint first_seen (seen : list number) (keys : list number) : list number :=
  match keys with
  | [] => []
  | k :: keys' =>
      if existsb (λ k', number_eqb k' k) seen then first_seen seen keys'
      else k :: first_seen (seen ++ [k]) keys'
  end.

(** One turn of the loop of [get_yield_table] on a key and its row. *)
Definition dict_step (d : list (number * list YieldClassRow))
    (kr : number * YieldClassRow) : list (number * list YieldClassRow) :=
  dict_append kr.1 kr.2 d.

(** Whether [int(row["id"])] is [id]. *)
Definition has_id (id : Z) (row : gmap string (option string)) : bool :=
  match dict_getitem row "id" ≫= int_of_cell with
  | Ok z => z =? id
  | Raise _ => false
  end.


(** ** [api/v1/yieldtables.py] *)

(** The [detail] of the two [HTTPException]s. *)
Inductive detail : Type :=
  | TableNotFoundMessage (yield_table_id : Z)
      (* {"message": f"Yield table with ID {yield_table_id} not found."} *)
  | ClassNotFoundMessage (interpolation_value : float).
      (* {"message": f"Yield class {interpolation_value} not found."} *)

(** What a handler gives the framework: the rendered value, an
    [HTTPException], or an exception it did not catch. *)
Inductive response (A : Type) : Type :=
  | Rendered (a : A)
  | HTTPException (status_code : Z) (d : detail)
  | Uncaught (e : exn).
Arguments Rendered {A} a.
Arguments HTTPException {A} status_code d.
Arguments Uncaught {A} e.

(** Modelled from the spec: [send_response] is not among the sources; it
    renders the value as JSON or HTML and fails on no value. *)
Definition send_response {A : Type} (a : A) : response A := Rendered a.

Definition read_yield_table_data (src : sources) (yield_table_id : Z)
  : response YieldTable :=
  match get_yield_table src yield_table_id with
  | Ok t => send_response t
  | Raise (ValueError _) => HTTPException 404 (TableNotFoundMessage yield_table_id)
  | Raise e => Uncaught e
  end.

Definition read_interpolated_yield_table_data (src : sources)
    (yield_table_id : Z) (interpolation_value : float) : response YieldClass :=
  match get_interpolated_yield_table src yield_table_id interpolation_value with
  | Ok c => send_response c
  | Raise (ValueError _) => HTTPException 404 (ClassNotFoundMessage interpolation_value)
  | Raise e => Uncaught e
  end.

(** ** Example sources *)

Definition meta_header : list string :=
  ["id"; "title"; "country_codes"; "type"; "source"; "link";
   "yield_class_step"; "age_step"; "tree_type"].

Definition data_header : list string :=
  ["id"; "yield_class"; "age"; "dominant_height"; "average_height"; "dbh";
   "taper"; "trees_per_ha"; "basal_area"; "volume_per_ha";
   "average_annual_age_increment"; "total_growth_performance";
   "current_annual_increment"; "mean_annual_increment"].

(** Two tables; the second one records no step sizes. *)
Definition ex_meta : csv_file :=
  {| fieldnames := meta_header;
     records :=
       [ ["1"; "Fichte Hochgebirge"; "AT,DE"; "dgz_100"; "Marschall"; "";
          "1"; "10"; "coniferous"];
         ["2"; "Kiefer"; "AT"; "dgz_100"; "Marschall"; ""; ""; ""; "coniferous"] ] |}.

(** Table 1 with the classes 6 (two ages) and 7 (three ages), the row of
    table 2 in between.  The current annual increment is not recorded at
    age 10. *)
Definition ex_data : csv_file :=
  {| fieldnames := data_header;
     records :=
       [ ["1"; "6"; "10"; "5.0"; "4.0"; "7.5"; "0.5"; "3000"; "10.1"; "20";
          "2.0"; "20"; ""; "2.0"];
         ["1"; "6"; "20"; "8.0"; "7.0"; "9.5"; "0.5"; "2500"; "15.3"; "60";
          "3.0"; "70"; "5.0"; "3.5"];
         ["2"; "6"; "10"; "1.0"; "1.0"; "1.0"; "1.0"; "1.0"; "1.0"; "1.0";
          "1.0"; "1.0"; "1.0"; "1.0"];
         ["1"; "7"; "10"; "6.0"; "5.0"; "8.5"; "0.5"; "2800"; "12.1"; "30";
          "3.0"; "30"; ""; "3.0"];
         ["1"; "7"; "20"; "9.0"; "8.0"; "10.5"; "0.5"; "2300"; "17.3"; "80";
          "4.0"; "90"; "6.0"; "4.5"];
         ["1"; "7"; "30"; "12.0"; "11.0"; "12.5"; "0.5"; "2000"; "19.3"; "90";
          "4.0"; "120"; "6.0"; "4.5"] ] |}.

Definition ex_src : sources :=
  {| csv_path_meta := ex_meta; csv_path_yield_tables := ex_data |}.

(** Table 1 with one age per class; the dominant height of class 6 is not
    recorded. *)
Definition absent_data : csv_file :=
  {| fieldnames := data_header;
     records :=
       [ ["1"; "6"; "10"; ""; "4.0"; "7.5"; "0.5"; "3000"; "10.1"; "20";
          "2.0"; "20"; "1.0"; "2.0"];
         ["1"; "7"; "10"; "6.0"; "5.0"; "8.5"; "0.5"; "2800"; "12.1"; "30";
          "3.0"; "30"; "2.0"; "3.0"] ] |}.

Definition absent_src : sources :=
  {| csv_path_meta := ex_meta; csv_path_yield_tables := absent_data |}.

(** Table 1 with an age that occurs twice in class 6, a class 7.5, and a
    row whose class is written [6.0]. *)
Definition dup_data : csv_file :=
  {| fieldnames := ["id"; "yield_class"; "age"; "dominant_height"];
     records :=
       [ ["1"; "6"; "10"; "5.0"];
         ["1"; "7.5"; "10"; "6.5"];
         ["2"; "6"; "10"; "1.0"];
         ["1"; "6"; "10"; "5.1"];
         ["1"; "6.0"; "20"; "8.0"] ] |}.

Definition dup_src : sources :=
  {| csv_path_meta := ex_meta; csv_path_yield_tables := dup_data |}.

(** Table 1 with an age that is not an integer. *)
Definition bad_age_data : csv_file :=
  {| fieldnames := ["id"; "yield_class"; "age"; "dominant_height"];
     records :=
       [ ["1"; "6"; "10"; "5.0"];
         ["1"; "6"; "ten"; "8.0"] ] |}.

Definition bad_age_src : sources :=
  {| csv_path_meta := ex_meta; csv_path_yield_tables := bad_age_data |}.

(** Metadata whose header has no id column. *)
Definition no_id_src : sources :=
  {| csv_path_meta :=
       {| fieldnames := ["title"; "country_codes"];
          records := [ ["Fichte Hochgebirge"; "AT,DE"] ] |};
     csv_path_yield_tables := ex_data |}.

(** The metadata of the two tables of [ex_src]. *)
Definition ex_meta_1 : YieldTableMeta :=
  YieldTableMeta.mk 1 (Some "Fichte Hochgebirge") ["AT"; "DE"] (Some "dgz_100")
    (Some "Marschall") (Some "") (Some (Num 1)) (Some 10) (Some "coniferous")
    data_header.

Definition ex_meta_2 : YieldTableMeta :=
  YieldTableMeta.mk 2 (Some "Kiefer") ["AT"] (Some "dgz_100")
    (Some "Marschall") (Some "") None None (Some "coniferous") data_header.

(** Table 1 with the classes -1 and 0 only. *)
Definition neg_data : csv_file :=
  {| fieldnames := data_header;
     records :=
       [ ["1"; "-1"; "10"; "5.0"; "4.0"; "7.5"; "0.5"; "3000"; "10.1"; "20";
          "2.0"; "20"; "1.0"; "2.0"];
         ["1"; "0"; "10"; "6.0"; "5.0"; "8.5"; "0.5"; "2800"; "12.1"; "30";
          "3.0"; "30"; "2.0"; "3.0"] ] |}.

Definition neg_src : sources :=
  {| csv_path_meta := ex_meta; csv_path_yield_tables := neg_data |}.



(** ** The builtins on sample text *)

Example py_int_ex :
  py_int " 42 " = Some 42 ∧ py_int "-7" = Some (-7) ∧ py_int "1_000" = Some 1000
  ∧ py_int "6.5" = None ∧ py_int "" = None ∧ py_int "abc" = None
  ∧ py_int "1__0" = None ∧ py_int "+" = None.
Proof. vm_compute. repeat split. Qed.

Example py_float_ex :
  py_float "6.5" = Some (Num (13 # 2)) ∧ py_float "5.0" = Some (Num 5)
  ∧ py_float "-1e-1" = Some (Num (-1 # 10)) ∧ py_float ".5" = Some (Num (1 # 2))
  ∧ py_float "1." = Some (Num 1) ∧ py_float "NaN" = Some NaN
  ∧ py_float "-inf" = Some (Inf true) ∧ py_float "abc" = None
  ∧ py_float "" = None ∧ py_float "." = None ∧ py_float "1e" = None.
Proof. vm_compute. repeat split. Qed.

Example int_of_float_ex :
  int_of_float (Num (13 # 2)) = Ok 6 ∧ int_of_float (Num (-1 # 2)) = Ok 0
  ∧ int_of_float (Num (-5 # 2)) = Ok (-2) ∧ int_of_float (Num 7) = Ok 7.
Proof. vm_compute. repeat split. Qed.

(** ** The error monad and the loops over lists *)

Lemma bind_Ok {A B : Type} (m : result A) (f : A → result B) (b : B) :
  m ≫= f = Ok b ↔ ∃ a, m = Ok a ∧ f a = Ok b.
Proof.
  destruct m as [a|e]; simpl; split.
  - intros H. by exists a.
  - by intros (a' & [= ->] & H).
  - discriminate.
  - by intros (a' & [=] & _).
Qed.

Lemma bind_Raise {A B : Type} (m : result A) (f : A → result B) (e : exn) :
  m ≫= f = Raise e ↔ m = Raise e ∨ ∃ a, m = Ok a ∧ f a = Raise e.
Proof.
  destruct m as [a|e']; simpl; split.
  - intros H. right. by exists a.
  - intros [H|(a' & H' & H)]; [discriminate|]. by injection H' as <-.
  - intros [= ->]. by left.
  - intros [[= ->]|(a' & H & _)]; [done|discriminate].
Qed.

Lemma mapM_Ok {A B : Type} (f : A → result B) (l : list A) (k : list B) :
  mapM f l = Ok k ↔ Forall2 (λ x y, f x = Ok y) l k.
Proof.
  revert k. induction l as [|x l IH]; intros k; simpl.
  - split.
    + intros [= <-]. constructor.
    + intros H. by inversion H.
  - split.
    + intros H. apply bind_Ok in H as (y & Hy & H).
      apply bind_Ok in H as (k' & Hk' & [= <-]).
      constructor; [done|]. by apply IH.
    + intros H. inversion H as [|? y ? k' Hy Hk']; subst.
      apply IH in Hk'. by rewrite Hy, Hk'.
Qed.

Lemma mapM_Raise {A B : Type} (f : A → result B) (l : list A) (e : exn) :
  mapM f l = Raise e → ∃ x, x ∈ l ∧ f x = Raise e.
Proof.
  induction l as [|x l IH]; simpl; [discriminate|].
  intros H. apply bind_Raise in H as [H|(y & Hy & H)].
  - exists x. split; [left|done].
  - apply bind_Raise in H as [H|(k & Hk & [=])].
    destruct (IH H) as (x' & Hin & Hx'). exists x'. split; [by right|done].
Qed.


(** ** The metadata catalog *)

Lemma get_yield_table_meta_loop_first (id : Z) (l : list YieldTableMeta)
    (i : nat) (m : YieldTableMeta) :
  l !! i = Some m →
  YieldTableMeta.id m = id →
  (∀ j m', (j < i)%nat → l !! j = Some m' → YieldTableMeta.id m' ≠ id) →
  get_yield_table_meta_loop id l = Ok m.
Proof.
  revert i. induction l as [|m0 l IH]; intros i Hi Hid Hbefore; [done|].
  simpl. destruct i as [|i]; simpl in Hi.
  - injection Hi as ->. by rewrite (proj2 (Z.eqb_eq _ _) Hid).
  - destruct (Z.eqb_spec (YieldTableMeta.id m0) id) as [Heq|_].
    + by destruct (Hbefore 0%nat m0 ltac:(lia) eq_refl).
    + apply (IH i); [done..|].
      intros j m' Hj Hm'. apply (Hbefore (S j) m'); [lia|done].
Qed.

Lemma get_yield_table_meta_loop_none (id : Z) (l : list YieldTableMeta) :
  (∀ m, m ∈ l → YieldTableMeta.id m ≠ id) →
  get_yield_table_meta_loop id l = Raise (ValueError (TableNotFound id)).
Proof.
  induction l as [|m0 l IH]; intros Hno; [done|]. simpl.
  destruct (Z.eqb_spec (YieldTableMeta.id m0) id) as [Heq|_].
  - destruct (Hno m0); [left|done].
  - apply IH. intros m Hm. apply Hno. by right.
Qed.

Lemma get_yield_table_meta_loop_Ok (id : Z) (l : list YieldTableMeta)
    (m : YieldTableMeta) :
  get_yield_table_meta_loop id l = Ok m →
  ∃ i, l !! i = Some m ∧ YieldTableMeta.id m = id
       ∧ ∀ j m', (j < i)%nat → l !! j = Some m' → YieldTableMeta.id m' ≠ id.
Proof.
  induction l as [|m0 l IH]; [done|]. simpl.
  destruct (Z.eqb_spec (YieldTableMeta.id m0) id) as [Heq|Hne].
  - intros [= ->]. exists 0%nat. split; [done|]. split; [done|]. lia.
  - intros H. destruct (IH H) as (i & Hi & Hid & Hbefore).
    exists (S i). split; [done|]. split; [done|].
    intros [|j] m' Hj Hm'; simpl in Hm'.
    + by injection Hm' as <-.
    + apply (Hbefore j); [lia|done].
Qed.

Lemma get_yield_table_meta_loop_Raise (id : Z) (l : list YieldTableMeta) (e : exn) :
  get_yield_table_meta_loop id l = Raise e →
  e = ValueError (TableNotFound id) ∧ ∀ m, m ∈ l → YieldTableMeta.id m ≠ id.
Proof.
  induction l as [|m0 l IH]; simpl.
  - intros [= <-]. split; [done|]. intros m Hm. by inversion Hm.
  - destruct (Z.eqb_spec (YieldTableMeta.id m0) id) as [Heq|Hne]; [done|].
    intros H. destruct (IH H) as [-> Hno]. split; [done|].
    intros m Hm. inversion Hm; subst; [done|]. by apply Hno.
Qed.

(** C8: [get_yield_table_meta src id] scans the list that
    [get_yield_tables_meta src] returns.  When some element carries [id],
    the call returns the first such element, which is an element of that
    list; when none does, it raises the [ValueError] that carries [id]. *)
Theorem get_yield_table_meta_agrees (src : sources) (id : Z)
    (l : list YieldTableMeta) :
  get_yield_tables_meta src = Ok l →
  ((∃ m, m ∈ l ∧ YieldTableMeta.id m = id) →
   ∃ i m, get_yield_table_meta src id = Ok m
          ∧ l !! i = Some m ∧ YieldTableMeta.id m = id
          ∧ ∀ j m', (j < i)%nat → l !! j = Some m' → YieldTableMeta.id m' ≠ id)
  ∧ (∀ i m, l !! i = Some m → YieldTableMeta.id m = id →
       (∀ j m', (j < i)%nat → l !! j = Some m' → YieldTableMeta.id m' ≠ id) →
       get_yield_table_meta src id = Ok m)
  ∧ ((∀ m, m ∈ l → YieldTableMeta.id m ≠ id) →
     get_yield_table_meta src id = Raise (ValueError (TableNotFound id))).
Proof.
  intros Hl. unfold get_yield_table_meta. rewrite Hl. simpl.
  split; [|split].
  - intros (m & Hin & Hid).
    destruct (get_yield_table_meta_loop id l) as [m1|e] eqn:E.
    + destruct (get_yield_table_meta_loop_Ok _ _ _ E) as (i & Hi & Hid1 & Hbefore).
      by exists i, m1.
    + destruct (get_yield_table_meta_loop_Raise _ _ _ E) as [_ Hno].
      by destruct (Hno m Hin).
  - intros i m. apply get_yield_table_meta_loop_first.
  - apply get_yield_table_meta_loop_none.
Qed.

Lemma get_yield_table_meta_agrees_witness :
  get_yield_tables_meta ex_src = Ok [ex_meta_1; ex_meta_2]
  ∧ get_yield_table_meta ex_src 2 = Ok ex_meta_2
  ∧ get_yield_table_meta ex_src 999 = Raise (ValueError (TableNotFound 999)).
Proof.
  assert (Hl : get_yield_tables_meta ex_src = Ok [ex_meta_1; ex_meta_2])
    by (vm_compute; reflexivity).
  split; [exact Hl|].
  destruct (get_yield_table_meta_agrees ex_src 2 _ Hl) as (_ & Hfirst & _).
  destruct (get_yield_table_meta_agrees ex_src 999 _ Hl) as (_ & _ & Hnone).
  split.
  - apply (Hfirst 1%nat); [reflexivity..|].
    intros [|j] m' Hj; [|lia]. intros [= <-]. discriminate.
  - apply Hnone. intros m Hm.
    repeat (apply elem_of_cons in Hm as [->|Hm]; [discriminate|]).
    by apply elem_of_nil in Hm.
Defined.

(** ** The bracketing classes *)

Lemma int_of_float_Num (q : Q) :
  int_of_float (Num q) = Ok (if Qle_bool 0 q then Qfloor q else Qceiling q).
Proof.
  destruct q as [n d].
  unfold int_of_float, Qceiling, Qfloor, Qle_bool, Qopp. cbn [Qnum Qden].
  f_equal. replace (0 * Z.pos d) with 0 by lia. replace (n * 1) with n by lia.
  destruct (Z.leb_spec 0 n) as [Hn|Hn].
  - by apply Z.quot_div_nonneg.
  - rewrite <- (Z.opp_involutive n) at 1. rewrite Z.quot_opp_l by done.
    f_equal. apply Z.quot_div_nonneg; lia.
Qed.

(** C2, as amended: [lower_yield_class] is [int(target)], the truncation
    of the target toward zero, that is its floor for a target that is not
    negative and its ceiling for a negative one; [upper_yield_class] is one
    more, and these two are the classes the call reads.  For [-0.5] they
    are 0 and 1. *)
Theorem lower_yield_class_truncates (src : sources) (id : Z) (q : Q) :
  let lower_yield_class := if Qle_bool 0 q then Qfloor q else Qceiling q in
  int_of_float (Num q) = Ok lower_yield_class
  ∧ get_interpolated_yield_table src id (Num q) =
      (yield_table_lower_class ← get_yield_table_of_class src id lower_yield_class;
       yield_table_upper_class ←
         get_yield_table_of_class src id (lower_yield_class + 1);
       interpolation_table ←
         mapM (λ p, interpolate_row (Num q) lower_yield_class
                      (lower_yield_class + 1) p.1 p.2)
              (zip yield_table_lower_class yield_table_upper_class);
       Ok {| yield_class := PyFloat (Num q); rows := interpolation_table |})
  ∧ int_of_float (Num (-1 # 2)) = Ok 0.
Proof.
  intros lower_yield_class. split; [apply int_of_float_Num|]. split; [|done].
  unfold get_interpolated_yield_table. by rewrite int_of_float_Num.
Qed.

(** The claim C2 fails at the target [-0.5]: its floor is -1, the lower class
    the call reads is 0, and in a table that holds the classes -1 and 0 the
    call misses the class 1. *)
Lemma lower_yield_class_not_floor :
  Qfloor (-1 # 2) = -1
  ∧ int_of_float (Num (-1 # 2)) = Ok 0
  ∧ (∃ lower_rows upper_rows,
        get_yield_table_of_class neg_src 1 (-1) = Ok lower_rows
        ∧ get_yield_table_of_class neg_src 1 0 = Ok upper_rows)
  ∧ get_interpolated_yield_table neg_src 1 (Num (-1 # 2)) =
      Raise (ValueError (ClassNotFound 1 1)).
Proof.
  split; [done|]. split; [done|]. split; [|by vm_compute].
  eexists _, _. split; by vm_compute.
Qed.

(** ** Optional step sizes of the metadata *)








(** ** The interpolator *)

Lemma get_yield_table_of_class_loop_Ok (id yc : Z) (l : list YieldClass)
    (rs : list YieldClassRow) :
  get_yield_table_of_class_loop id yc l = Ok rs →
  ∃ i c, l !! i = Some c ∧ number_eqb (yield_class c) (PyInt yc) = true
         ∧ rows c = rs
         ∧ ∀ j c', (j < i)%nat → l !! j = Some c' →
                   number_eqb (yield_class c') (PyInt yc) = false.
Proof.
  induction l as [|c0 l IH]; [done|]. simpl.
  destruct (number_eqb (yield_class c0) (PyInt yc)) eqn:E.
  - intros [= <-]. exists 0%nat, c0. repeat split; [done|]. lia.
  - intros H. destruct (IH H) as (i & c & Hi & Hc & Hrs & Hbefore).
    exists (S i), c. repeat split; [done..|].
    intros [|j] c' Hj Hc'; simpl in Hc'.
    + by injection Hc' as <-.
    + apply (Hbefore j); [lia|done].
Qed.

Lemma get_yield_table_of_class_loop_Raise (id yc : Z) (l : list YieldClass)
    (e : exn) :
  get_yield_table_of_class_loop id yc l = Raise e →
  e = ValueError (ClassNotFound yc id)
  ∧ ∀ c, c ∈ l → number_eqb (yield_class c) (PyInt yc) = false.
Proof.
  induction l as [|c0 l IH]; simpl.
  - intros [= <-]. split; [done|]. intros c Hc. by inversion Hc.
  - destruct (number_eqb (yield_class c0) (PyInt yc)) eqn:E; [done|].
    intros H. destruct (IH H) as [-> Hno]. split; [done|].
    intros c Hc. inversion Hc; subst; [done|]. by apply Hno.
Qed.

(** The class lookup finds the rows exactly of a tabulated class. *)
Lemma get_yield_table_of_class_loop_tabulated (id yc : Z) (t : YieldTable) :
  (tabulated t yc ↔
   ∃ rs, get_yield_table_of_class_loop id yc (yield_classes (data t)) = Ok rs)
  ∧ (¬ tabulated t yc ↔
     get_yield_table_of_class_loop id yc (yield_classes (data t)) =
       Raise (ValueError (ClassNotFound yc id))).
Proof.
  unfold tabulated.
  destruct (get_yield_table_of_class_loop id yc (yield_classes (data t)))
    as [rs|e] eqn:E.
  - destruct (get_yield_table_of_class_loop_Ok _ _ _ _ E) as (i & c & Hi & Hc & _).
    assert (Hin : c ∈ yield_classes (data t)).
    { apply list_elem_of_lookup. by exists i. }
    split; split.
    + intros _. by exists rs.
    + intros _. by exists c.
    + intros Hno. destruct Hno. by exists c.
    + discriminate.
  - destruct (get_yield_table_of_class_loop_Raise _ _ _ _ E) as [-> Hno].
    split; split.
    + intros (c & Hin & Hc). rewrite (Hno c Hin) in Hc. discriminate.
    + intros [rs [=]].
    + done.
    + intros _ (c & Hin & Hc). rewrite (Hno c Hin) in Hc. discriminate.
Qed.

Lemma np_interp_Raise (x : float) (xp0 xp1 : Z) (fp0 fp1 : option float) (e : exn) :
  np_interp x xp0 xp1 fp0 fp1 = Raise e → e = TypeError.
Proof. destruct fp0, fp1; simpl; congruence. Qed.

Lemma np_interp_None (x : float) (xp0 xp1 : Z) (fp0 fp1 : option float) :
  fp0 = None ∨ fp1 = None → np_interp x xp0 xp1 fp0 fp1 = Raise TypeError.
Proof. intros [-> | ->]; [done|]. by destruct fp0. Qed.

Lemma interpolate_row_Raise (target : float) (lo hi : Z) (lr ur : YieldClassRow)
    (e : exn) :
  interpolate_row target lo hi lr ur = Raise e → e = TypeError.
Proof.
  unfold interpolate_row. intros H.
  repeat (apply bind_Raise in H as [H|(? & _ & H)];
          [by apply np_interp_Raise in H|]).
  discriminate.
Qed.

(** A row is built exactly from the eleven calls of [np.interp], and keeps
    the age of the lower row. *)
Lemma interpolate_row_Ok (target : float) (lo hi : Z) (lr ur r : YieldClassRow) :
  interpolate_row target lo hi lr ur = Ok r →
  age r = age lr
  ∧ ∀ f, ∃ v, get_field f r = Some v
              ∧ np_interp target lo hi (interp_argument f lr)
                  (interp_argument f ur) = Ok v.
Proof.
  unfold interpolate_row. intros H.
  apply bind_Ok in H as (v1 & H1 & H). apply bind_Ok in H as (v2 & H2 & H).
  apply bind_Ok in H as (v3 & H3 & H). apply bind_Ok in H as (v4 & H4 & H).
  apply bind_Ok in H as (v5 & H5 & H). apply bind_Ok in H as (v6 & H6 & H).
  apply bind_Ok in H as (v7 & H7 & H). apply bind_Ok in H as (v8 & H8 & H).
  apply bind_Ok in H as (v9 & H9 & H). apply bind_Ok in H as (v10 & H10 & H).
  apply bind_Ok in H as (v11 & H11 & H). injection H as <-.
  split; [done|]. intros []; simpl; eauto.
Qed.

Lemma interpolate_row_absent (target : float) (lo hi : Z) (lr ur : YieldClassRow)
    (f : field) :
  f ≠ Current_annual_increment →
  get_field f lr = None ∨ get_field f ur = None →
  interpolate_row target lo hi lr ur = Raise TypeError.
Proof.
  intros Hf Habs.
  destruct (interpolate_row target lo hi lr ur) as [r|e] eqn:E.
  - destruct (interpolate_row_Ok _ _ _ _ _ _ E) as [_ Hr].
    destruct (Hr f) as (v & _ & Hv).
    rewrite np_interp_None in Hv; [done|].
    destruct f; simpl; done.
  - by rewrite (interpolate_row_Raise _ _ _ _ _ _ E).
Qed.

(** What a returned interpolation was made of. *)
Lemma get_interpolated_yield_table_Ok (src : sources) (id : Z) (target : float)
    (res : YieldClass) :
  get_interpolated_yield_table src id target = Ok res →
  ∃ lower_yield_class lower_rows upper_rows,
    int_of_float target = Ok lower_yield_class
    ∧ get_yield_table_of_class src id lower_yield_class = Ok lower_rows
    ∧ get_yield_table_of_class src id (lower_yield_class + 1) = Ok upper_rows
    ∧ yield_class res = PyFloat target
    ∧ Forall2 (λ p r, interpolate_row target lower_yield_class
                        (lower_yield_class + 1) p.1 p.2 = Ok r)
        (zip lower_rows upper_rows) (rows res).
Proof.
  unfold get_interpolated_yield_table. intros H.
  apply bind_Ok in H as (lo & Hlo & H).
  apply bind_Ok in H as (lrows & Hl & H).
  apply bind_Ok in H as (urows & Hu & H).
  apply bind_Ok in H as (tbl & Htbl & H). injection H as <-.
  exists lo, lrows, urows. repeat split; [done..|]. by apply mapM_Ok.
Qed.

Lemma get_interpolated_yield_table_Raise (src : sources) (id : Z) (target : float)
    (lo : Z) (lower_rows upper_rows : list YieldClassRow) (e : exn) :
  int_of_float target = Ok lo →
  get_yield_table_of_class src id lo = Ok lower_rows →
  get_yield_table_of_class src id (lo + 1) = Ok upper_rows →
  get_interpolated_yield_table src id target = Raise e →
  e = TypeError.
Proof.
  unfold get_interpolated_yield_table. intros Hlo Hl Hu.
  rewrite Hlo. simpl. rewrite Hl. simpl. rewrite Hu. simpl. intros H.
  apply bind_Raise in H as [H|(? & _ & [=])].
  apply mapM_Raise in H as (p & _ & H). by apply interpolate_row_Raise in H.
Qed.

(** C9: a returned interpolation carries the target as its key, and its
    rows are made from the pairs by position of the rows of the lower and of
    the upper class: there are as many as the shorter of the two has, row [i]
    is interpolated from the two rows at [i], and its age is the age of the
    lower one. *)
Theorem interpolation_pairs_by_position (src : sources) (id : Z)
    (target : float) (res : YieldClass) :
  get_interpolated_yield_table src id target = Ok res →
  ∃ lower_yield_class lower_rows upper_rows,
    int_of_float target = Ok lower_yield_class
    ∧ get_yield_table_of_class src id lower_yield_class = Ok lower_rows
    ∧ get_yield_table_of_class src id (lower_yield_class + 1) = Ok upper_rows
    ∧ yield_class res = PyFloat target
    ∧ length (rows res) = (length lower_rows `min` length upper_rows)%nat
    ∧ ∀ i r, rows res !! i = Some r →
        ∃ lower_row upper_row,
          lower_rows !! i = Some lower_row
          ∧ upper_rows !! i = Some upper_row
          ∧ interpolate_row target lower_yield_class (lower_yield_class + 1)
              lower_row upper_row = Ok r
          ∧ age r = age lower_row.
Proof.
  intros H.
  destruct (get_interpolated_yield_table_Ok _ _ _ _ H)
    as (lo & lrows & urows & Hlo & Hl & Hu & Hkey & Hrows).
  exists lo, lrows, urows. repeat split; [done..| |].
  - rewrite <- (Forall2_length _ _ _ Hrows). apply length_zip_with.
  - intros i r Hr.
    destruct (Forall2_lookup_r _ _ _ _ _ Hrows Hr) as ([lr ur] & Hp & Hrow).
    apply lookup_zip_with_Some in Hp as (lr' & ur' & [= <- <-] & Hlr & Hur).
    exists lr, ur. repeat split; [done..|].
    by destruct (interpolate_row_Ok _ _ _ _ _ _ Hrow).
Qed.

Lemma interpolation_pairs_by_position_witness :
  ∃ res, get_interpolated_yield_table ex_src 1 (Num (13 # 2)) = Ok res
         ∧ yield_class res = PyFloat (Num (13 # 2))
         ∧ age <$> rows res = [10; 20]
         ∧ ∃ lower_rows upper_rows,
             get_yield_table_of_class ex_src 1 6 = Ok lower_rows
             ∧ get_yield_table_of_class ex_src 1 7 = Ok upper_rows
             ∧ length lower_rows = 2%nat ∧ length upper_rows = 3%nat
             ∧ length (rows res) = 2%nat.
Proof.
  destruct (get_interpolated_yield_table ex_src 1 (Num (13 # 2)))
    as [res|e] eqn:E; [|by vm_compute in E].
  exists res. split; [done|].
  destruct (interpolation_pairs_by_position _ _ _ _ E)
    as (lo & lrows & urows & Hlo & Hl & Hu & Hkey & Hlen & Hrows).
  injection Hlo as <-.
  vm_compute in Hl. injection Hl as <-.
  vm_compute in Hu. injection Hu as <-.
  split; [done|]. split.
  - vm_compute in E. by injection E as <-.
  - eexists _, _. repeat split; done.
Defined.

(** C1: only the current annual increment goes through [safe_float].  When
    the two bracketing classes are found and some pair of rows lacks any
    other measurement, in the lower or in the upper row, the call raises a
    [TypeError]: the absent value is not taken as 0.0, and no interpolated
    value is produced. *)
Theorem absent_measurement_raises (src : sources) (id : Z)
    (target : float) (lo : Z) (lower_rows upper_rows : list YieldClassRow)
    (i : nat) (lower_row upper_row : YieldClassRow) (f : field) :
  int_of_float target = Ok lo →
  get_yield_table_of_class src id lo = Ok lower_rows →
  get_yield_table_of_class src id (lo + 1) = Ok upper_rows →
  lower_rows !! i = Some lower_row →
  upper_rows !! i = Some upper_row →
  f ≠ Current_annual_increment →
  get_field f lower_row = None ∨ get_field f upper_row = None →
  get_interpolated_yield_table src id target = Raise TypeError.
Proof.
  intros Hlo Hl Hu Hlr Hur Hf Habs.
  destruct (get_interpolated_yield_table src id target) as [res|e] eqn:E.
  - destruct (get_interpolated_yield_table_Ok _ _ _ _ E)
      as (lo' & lrows & urows & Hlo' & Hl' & Hu' & _ & Hrows).
    assert (lo' = lo) as -> by congruence.
    assert (lrows = lower_rows) as -> by congruence.
    assert (urows = upper_rows) as -> by congruence.
    assert (Hp : zip lower_rows upper_rows !! i = Some (lower_row, upper_row)).
    { apply lookup_zip_with_Some. by exists lower_row, upper_row. }
    destruct (Forall2_lookup_l _ _ _ _ _ Hrows Hp) as (r & _ & Hr). simpl in Hr.
    by rewrite (interpolate_row_absent _ _ _ _ _ f Hf Habs) in Hr.
  - by rewrite (get_interpolated_yield_table_Raise _ _ _ _ _ _ _ Hlo Hl Hu E).
Qed.

Lemma absent_measurement_raises_witness :
  get_interpolated_yield_table absent_src 1 (Num (13 # 2)) = Raise TypeError
  ∧ ∃ lower_row upper_row,
      get_yield_table_of_class absent_src 1 6 = Ok [lower_row]
      ∧ get_yield_table_of_class absent_src 1 7 = Ok [upper_row]
      ∧ dominant_height lower_row = None
      ∧ dominant_height upper_row = Some (Num 6).
Proof.
  destruct (get_yield_table_of_class absent_src 1 6) as [lrows|] eqn:El;
    [|by vm_compute in El].
  destruct (get_yield_table_of_class absent_src 1 7) as [urows|] eqn:Eu;
    [|by vm_compute in Eu].
  pose proof El as El'. pose proof Eu as Eu'.
  vm_compute in El'. injection El' as <-.
  vm_compute in Eu'. injection Eu' as <-.
  split.
  - eapply (absent_measurement_raises absent_src 1 (Num (13 # 2)) 6 _ _ 0%nat
              _ _ Dominant_height);
      [reflexivity|exact El|exact Eu|reflexivity|reflexivity|discriminate|].
    by left.
  - eexists _, _. repeat split; reflexivity.
Defined.


(** A pair of rows that lacks none of the other ten measurements gives a
    row. *)
Lemma interpolate_row_returns (target : float) (lo hi : Z) (lr ur : YieldClassRow) :
  (∀ f, f ≠ Current_annual_increment →
        is_Some (get_field f lr) ∧ is_Some (get_field f ur)) →
  ∃ r, interpolate_row target lo hi lr ur = Ok r.
Proof.
  intros Hall.
  assert (Hi : ∀ f, f ≠ Current_annual_increment →
            ∃ v, np_interp target lo hi (get_field f lr) (get_field f ur) = Ok v).
  { intros f Hf. destruct (Hall f Hf) as [[a ->] [b ->]]. by eexists. }
  unfold interpolate_row. cbv zeta.
  destruct (Hi Dominant_height) as [? H]; [done|]; simpl in H; rewrite H; clear H.
  destruct (Hi Average_height) as [? H]; [done|]; simpl in H; rewrite H; clear H.
  destruct (Hi Dbh) as [? H]; [done|]; simpl in H; rewrite H; clear H.
  destruct (Hi Taper) as [? H]; [done|]; simpl in H; rewrite H; clear H.
  destruct (Hi Trees_per_ha) as [? H]; [done|]; simpl in H; rewrite H; clear H.
  destruct (Hi Basal_area) as [? H]; [done|]; simpl in H; rewrite H; clear H.
  destruct (Hi Volume_per_ha) as [? H]; [done|]; simpl in H; rewrite H; clear H.
  destruct (Hi Average_annual_age_increment) as [? H]; [done|]; simpl in H;
    rewrite H; clear H.
  destruct (Hi Total_growth_performance) as [? H]; [done|]; simpl in H;
    rewrite H; clear H.
  destruct (Hi Mean_annual_increment) as [? H]; [done|]; simpl in H;
    rewrite H; clear H.
  simpl. by eexists.
Qed.

(** ** Two-point interpolation on finite values *)









Lemma get_yield_table_of_class_eq (src : sources) (id yc : Z) (t : YieldTable) :
  get_yield_table src id = Ok t →
  get_yield_table_of_class src id yc =
    get_yield_table_of_class_loop id yc (yield_classes (data t)).
Proof. intros H. unfold get_yield_table_of_class. by rewrite H. Qed.

Lemma int_of_float_integral (q : Q) (z : Z) :
  (q == inject_Z z)%Q → int_of_float (Num q) = Ok z.
Proof.
  intros Hq. rewrite int_of_float_Num. f_equal.
  rewrite (Qceiling_comp _ _ Hq), (Qfloor_comp _ _ Hq).
  rewrite Qceiling_Z, Qfloor_Z. by destruct (Qle_bool 0 q).
Qed.

(** How the call fails on the two class lookups, for a table that loads. *)
Lemma interpolation_class_lookup (src : sources) (id : Z) (q : Q) (t : YieldTable) :
  get_yield_table src id = Ok t →
  ∃ lower_yield_class,
    int_of_float (Num q) = Ok lower_yield_class
    ∧ ((∃ yc, get_interpolated_yield_table src id (Num q) =
                Raise (ValueError (ClassNotFound yc id)))
       ↔ ¬ tabulated t lower_yield_class
         ∨ ¬ tabulated t (lower_yield_class + 1))
    ∧ (¬ tabulated t lower_yield_class →
       get_interpolated_yield_table src id (Num q) =
         Raise (ValueError (ClassNotFound lower_yield_class id)))
    ∧ (tabulated t lower_yield_class →
       ¬ tabulated t (lower_yield_class + 1) →
       get_interpolated_yield_table src id (Num q) =
         Raise (ValueError (ClassNotFound (lower_yield_class + 1) id)))
    ∧ (∀ z, (q == inject_Z z)%Q → lower_yield_class = z)
    ∧ (∀ z, (q == inject_Z z)%Q → tabulated t z → ¬ tabulated t (z + 1) →
         get_interpolated_yield_table src id (Num q) =
           Raise (ValueError (ClassNotFound (z + 1) id))).
Proof.
  intros Ht.
  destruct (int_of_float (Num q)) as [lo|] eqn:Hlo; [|done].
  exists lo. split; [done|].
  destruct (get_yield_table_of_class_loop_tabulated id lo t) as [Hl1 Hl2].
  destruct (get_yield_table_of_class_loop_tabulated id (lo + 1) t) as [Hu1 Hu2].
  rewrite <- (get_yield_table_of_class_eq src id lo t Ht) in Hl1, Hl2.
  rewrite <- (get_yield_table_of_class_eq src id (lo + 1) t Ht) in Hu1, Hu2.
  assert (Hmiss_lo : ¬ tabulated t lo →
            get_interpolated_yield_table src id (Num q) =
              Raise (ValueError (ClassNotFound lo id))).
  { intros Hno. unfold get_interpolated_yield_table.
    rewrite Hlo. simpl. by rewrite (proj1 Hl2 Hno). }
  assert (Hmiss_up : tabulated t lo → ¬ tabulated t (lo + 1) →
            get_interpolated_yield_table src id (Num q) =
              Raise (ValueError (ClassNotFound (lo + 1) id))).
  { intros Hyes Hno. unfold get_interpolated_yield_table.
    rewrite Hlo. simpl. destruct (proj1 Hl1 Hyes) as [lrows Hlrows].
    rewrite Hlrows. simpl. by rewrite (proj1 Hu2 Hno). }
  assert (Hint : ∀ z, (q == inject_Z z)%Q → lo = z).
  { intros z Hz. rewrite (int_of_float_integral q z Hz) in Hlo. congruence. }
  assert (Hdec_lo : tabulated t lo ∨ ¬ tabulated t lo).
  { destruct (get_yield_table_of_class src id lo) as [lrows|e1] eqn:E1.
    - left. apply Hl1. by exists lrows.
    - right. intros Hyes. apply Hl1 in Hyes as [rs [=]]. }
  assert (Hdec_up : tabulated t (lo + 1) ∨ ¬ tabulated t (lo + 1)).
  { destruct (get_yield_table_of_class src id (lo + 1)) as [urows|e2] eqn:E2.
    - left. apply Hu1. by exists urows.
    - right. intros Hyes. apply Hu1 in Hyes as [rs [=]]. }
  split; [|split; [done|split; [done|split; [done|]]]].
  - split.
    + intros [yc Hyc].
      destruct Hdec_lo as [Hyes_lo|Hno_lo]; [|by left].
      destruct Hdec_up as [Hyes_up|Hno_up]; [|by right].
      apply Hl1 in Hyes_lo as [lrows E1]. apply Hu1 in Hyes_up as [urows E2].
      by pose proof (get_interpolated_yield_table_Raise _ _ _ _ _ _ _
                       Hlo E1 E2 Hyc).
    + intros [Hno|Hno].
      * exists lo. by apply Hmiss_lo.
      * destruct Hdec_lo as [Hyes_lo|Hno_lo].
        -- exists (lo + 1). by apply Hmiss_up.
        -- exists lo. by apply Hmiss_lo.
  - intros z Hz Hyes Hno. rewrite <- (Hint z Hz) in *. by apply Hmiss_up.
Qed.



(** ** Interpolated values lie between the tabulated ones *)




(** ** Equality of keys *)

Lemma float_eqb_sym (x y : float) : float_eqb x y = float_eqb y x.
Proof.
  destruct x as [p|s|], y as [q|s'|]; simpl; try done.
  - destruct (Qeq_bool p q) eqn:E1, (Qeq_bool q p) eqn:E2; try done.
    + apply Qeq_bool_iff in E1. symmetry in E1. apply Qeq_bool_iff in E1.
      congruence.
    + apply Qeq_bool_iff in E2. symmetry in E2. apply Qeq_bool_iff in E2.
      congruence.
  - by destruct s, s'.
Qed.

Lemma float_eqb_trans (x y z : float) :
  float_eqb x y = true → float_eqb y z = true → float_eqb x z = true.
Proof.
  destruct x as [p|s|], y as [q|s'|], z as [r|s''|]; simpl; try done.
  - rewrite !Qeq_bool_iff. intros -> ->. reflexivity.
  - destruct s, s', s''; done.
Qed.

Lemma number_eqb_sym (a b : number) : number_eqb a b = number_eqb b a.
Proof. apply float_eqb_sym. Qed.

Lemma number_eqb_trans (a b c : number) :
  number_eqb a b = true → number_eqb b c = true → number_eqb a c = true.
Proof. apply float_eqb_trans. Qed.

(** ** The loop of [get_yield_table] groups as the specification says *)

Lemma group_by_first_seen_cons (k : number) (r : YieldClassRow)
    (l : list (number * YieldClassRow)) :
  group_by_first_seen ((k, r) :: l) =
    (k, r :: (filter (λ kr, number_eqb k kr.1 = true) l).*2)
    :: group_by_first_seen (filter (λ kr, number_eqb k kr.1 ≠ true) l).
Proof. by simp group_by_first_seen. Qed.

Lemma group_by_first_seen_nil : group_by_first_seen [] = [].
Proof. by simp group_by_first_seen. Qed.

(** Induction on a list along the recursion of [group_by_first_seen]. *)
Lemma group_ind (P : list (number * YieldClassRow) → Prop) :
  P [] →
  (∀ k r l, P (filter (λ kr, number_eqb k kr.1 ≠ true) l) → P ((k, r) :: l)) →
  ∀ l, P l.
Proof.
  intros Hnil Hcons l.
  remember (length l) as n eqn:Hn. revert l Hn.
  induction n as [n IH] using lt_wf_ind. intros l ->.
  destruct l as [|[k r] l]; [done|].
  apply Hcons. apply (IH (length (filter (λ kr, number_eqb k kr.1 ≠ true) l)));
    [|done].
  simpl. apply Nat.lt_succ_r, length_filter.
Qed.

(** Grouping one more row is one more turn of the loop. *)
Lemma group_by_first_seen_snoc (l : list (number * YieldClassRow))
    (k : number) (r : YieldClassRow) :
  group_by_first_seen (l ++ [(k, r)]) = dict_append k r (group_by_first_seen l).
Proof.
  induction l as [|k0 r0 l IH] using group_ind.
  - simpl. rewrite group_by_first_seen_cons, group_by_first_seen_nil.
    by rewrite !filter_nil, group_by_first_seen_nil.
  - rewrite <- app_comm_cons, !group_by_first_seen_cons, !filter_app.
    simpl. destruct (number_eqb k0 k) eqn:E.
    + rewrite (filter_cons_True (λ kr, number_eqb k0 kr.1 = true)) by done.
      rewrite (filter_cons_False (λ kr, number_eqb k0 kr.1 ≠ true))
        by (simpl; intros H; by apply H).
      rewrite !filter_nil, app_nil_r, fmap_app. done.
    + rewrite (filter_cons_False (λ kr, number_eqb k0 kr.1 = true))
        by (simpl; congruence).
      rewrite (filter_cons_True (λ kr, number_eqb k0 kr.1 ≠ true))
        by (simpl; congruence).
      rewrite !filter_nil, app_nil_r, IH. done.
Qed.

Lemma foldl_dict_step (l : list (number * YieldClassRow)) :
  foldl dict_step [] l = group_by_first_seen l.
Proof.
  induction l as [|[k r] l IH] using rev_ind.
  - by rewrite group_by_first_seen_nil.
  - by rewrite foldl_snoc, IH, group_by_first_seen_snoc.
Qed.

(** The loop fails where the first row fails, and otherwise folds the keyed
    rows into the dictionary. *)
Lemma organize_keyed (filtered : list (gmap string (option string)))
    (d : list (number * list YieldClassRow)) :
  organize filtered d =
    (krs ← mapM keyed_row filtered; Ok (foldl dict_step d krs)).
Proof.
  revert d. induction filtered as [|row rest IH]; intros d; [done|].
  change (organize (row :: rest) d) with
    (yc ← yield_class_of row; r ← YieldClassRow_of row;
     organize rest (dict_append yc r d)).
  change (mapM keyed_row (row :: rest)) with
    (y ← keyed_row row; k ← mapM keyed_row rest; Ok (y :: k)).
  destruct (yield_class_of row) as [yc|e] eqn:Ey.
  - destruct (YieldClassRow_of row) as [r|e] eqn:Er.
    + assert (keyed_row row = Ok (yc, r)) as ->
        by (unfold keyed_row; by rewrite Ey, Er).
      simpl. rewrite IH. by destruct (mapM keyed_row rest).
    + assert (keyed_row row = Raise e) as ->
        by (unfold keyed_row; by rewrite Ey, Er).
      done.
  - assert (keyed_row row = Raise e) as -> by (unfold keyed_row; by rewrite Ey).
    done.
Qed.

Lemma filtered_data_Ok (id : Z) (reader kept : list (gmap string (option string))) :
  filtered_data id reader = Ok kept →
  kept = filter (λ row, has_id id row = true) reader.
Proof.
  revert kept. induction reader as [|row reader IH]; intros kept; simpl.
  - by intros [= <-].
  - intros H. apply bind_Ok in H as (v & Hv & H).
    apply bind_Ok in H as (z & Hz & H).
    apply bind_Ok in H as (rest & Hrest & [= <-]).
    rewrite (IH _ Hrest), filter_cons.
    assert (has_id id row = (z =? id)) as ->
      by (unfold has_id; rewrite Hv; simpl; by rewrite Hz).
    destruct (z =? id); by case_decide.
Qed.

(** What a returned table was made of. *)
Lemma get_yield_table_Ok (src : sources) (id : Z) (t : YieldTable) :
  get_yield_table src id = Ok t →
  ∃ krs,
    get_yield_table_meta src id = Ok (meta t)
    ∧ mapM keyed_row
        (filter (λ row, has_id id row = true)
                (DictReader (csv_path_yield_tables src))) = Ok krs
    ∧ yield_classes (data t) = YieldClass_of_item <$> group_by_first_seen krs.
Proof.
  unfold get_yield_table. intros H.
  apply bind_Ok in H as (m & Hm & H).
  apply bind_Ok in H as (kept & Hkept & H).
  apply bind_Ok in H as (d & Hd & [= <-]). simpl.
  rewrite organize_keyed in Hd. apply bind_Ok in Hd as (krs & Hkrs & [= <-]).
  exists krs. rewrite <- (filtered_data_Ok _ _ _ Hkept), foldl_dict_step. done.
Qed.

(** Every group starts with a row of the list that carries the group's
    key. *)
Lemma group_by_first_seen_head (l : list (number * YieldClassRow))
    (k : number) (rs : list YieldClassRow) :
  (k, rs) ∈ group_by_first_seen l → ∃ r rs', rs = r :: rs' ∧ (k, r) ∈ l.
Proof.
  induction l as [|k0 r0 l IH] using group_ind.
  - rewrite group_by_first_seen_nil. by intros ?%elem_of_nil.
  - rewrite group_by_first_seen_cons. intros [[= -> ->]|Hin]%elem_of_cons.
    + eexists _, _. split; [done|]. left.
    + destruct (IH Hin) as (r & rs' & -> & Hr).
      apply list_elem_of_filter in Hr as [_ Hr].
      exists r, rs'. split; [done|]. by right.
Qed.

(** The groups hold the rows of the list, none lost and none added. *)
Lemma group_by_first_seen_perm (l : list (number * YieldClassRow)) :
  concat ((group_by_first_seen l).*2) ≡ₚ l.*2.
Proof.
  induction l as [|k0 r0 l IH] using group_ind.
  - by rewrite group_by_first_seen_nil.
  - rewrite group_by_first_seen_cons. simpl. constructor.
    rewrite IH, <- fmap_app. apply fmap_Permutation.
    apply filter_app_complement.
Qed.

(** No two groups have equal keys. *)
Lemma group_by_first_seen_distinct (l : list (number * YieldClassRow))
    (i j : nat) (gi gj : number * list YieldClassRow) :
  i ≠ j →
  group_by_first_seen l !! i = Some gi →
  group_by_first_seen l !! j = Some gj →
  number_eqb gi.1 gj.1 = false.
Proof.
  assert (Hlt : ∀ l i j gi gj, (i < j)%nat →
            group_by_first_seen l !! i = Some gi →
            group_by_first_seen l !! j = Some gj →
            number_eqb gi.1 gj.1 = false).
  { clear. intros l. induction l as [|k0 r0 l IH] using group_ind;
      intros i j gi gj Hij.
    - by rewrite group_by_first_seen_nil.
    - rewrite group_by_first_seen_cons.
      destruct j as [|j]; [lia|]. destruct i as [|i]; simpl.
      + intros [= <-] Hj. simpl. destruct gj as [kj rsj].
        apply list_elem_of_lookup_2, group_by_first_seen_head in Hj
          as (r & rs' & _ & Hr).
        apply list_elem_of_filter in Hr as [Hr _]. simpl in *.
        by destruct (number_eqb k0 kj).
      + apply IH. lia. }
  intros Hij Hi Hj. destruct (Nat.lt_total i j) as [H|[H|H]]; [eauto|done|].
  rewrite number_eqb_sym. eauto.
Qed.

(** A group of a key that equals itself holds exactly the rows of an equal
    key, in the order of the list. *)
Lemma group_by_first_seen_rows (l : list (number * YieldClassRow))
    (k : number) (rs : list YieldClassRow) :
  (k, rs) ∈ group_by_first_seen l →
  number_eqb k k = true →
  rs = (filter (λ kr, number_eqb k kr.1 = true) l).*2.
Proof.
  intros Hin Hk. induction l as [|k0 r0 l IH] using group_ind.
  - rewrite group_by_first_seen_nil in Hin. by apply elem_of_nil in Hin.
  - rewrite group_by_first_seen_cons in Hin.
    apply elem_of_cons in Hin as [[= -> ->]|Hin].
    + by rewrite filter_cons_True.
    + assert (Hne : number_eqb k0 k = false).
      { apply group_by_first_seen_head in Hin as (r & rs' & _ & Hr).
        apply list_elem_of_filter in Hr as [Hr _]. simpl in Hr.
        by destruct (number_eqb k0 k). }
      rewrite filter_cons_False
        by (simpl; rewrite number_eqb_sym, Hne; discriminate).
      rewrite (IH Hin), list_filter_filter. f_equal.
      apply list_filter_iff. intros [k' r']. simpl. split; [by intros [? _]|].
      intros Hk'. split; [done|]. intros Hk0.
      rewrite (number_eqb_trans k0 k' k) in Hne; [done..|].
      by rewrite number_eqb_sym.
Qed.

Lemma dict_append_keys (k : number) (r : YieldClassRow)
    (d : list (number * list YieldClassRow)) :
  (dict_append k r d).*1 =
    if existsb (λ k', number_eqb k' k) d.*1 then d.*1 else d.*1 ++ [k].
Proof.
  induction d as [|[k' rs] d IH]; [done|].
  change (dict_append k r ((k', rs) :: d)) with
    (if number_eqb k' k then (k', rs ++ [r]) :: d
     else (k', rs) :: dict_append k r d).
  change (((k', rs) :: d).*1) with (k' :: d.*1). cbn [existsb].
  destruct (number_eqb k' k); [done|].
  change (((k', rs) :: dict_append k r d).*1)
    with (k' :: (dict_append k r d).*1).
  rewrite IH. cbn [orb]. by destruct (existsb _ _).
Qed.

(** The keys of the dictionary are the distinct keys of the rows in
    first-seen order. *)
Lemma foldl_dict_step_keys (l : list (number * YieldClassRow))
    (d : list (number * list YieldClassRow)) :
  (foldl dict_step d l).*1 = d.*1 ++ first_seen d.*1 l.*1.
Proof.
  revert d. induction l as [|[k r] l IH]; intros d.
  - simpl. by rewrite app_nil_r.
  - change (foldl dict_step d ((k, r) :: l))
      with (foldl dict_step (dict_append k r d) l).
    change (((k, r) :: l).*1) with (k :: l.*1).
    rewrite IH, dict_append_keys. cbn [first_seen].
    destruct (existsb _ _); [done|]. by rewrite <- app_assoc.
Qed.

Lemma yield_class_of_Ok (row : gmap string (option string)) (s : string) :
  row !! "yield_class" = Some (Some s) →
  yield_class_of row =
    match py_int s with
    | Some z => Ok (PyInt z)
    | None =>
        match py_float s with
        | Some f => Ok (PyFloat f)
        | None => Raise (ValueError (InvalidLiteral s))
        end
    end.
Proof.
  intros Hs. unfold yield_class_of, dict_getitem. rewrite Hs. simpl.
  destruct (py_int s); [done|]. simpl. by destruct (py_float s).
Qed.

(** C7: the key of a row is the integer its cell denotes, and otherwise the
    float it denotes; the classes of a returned table are the groups of the
    kept rows by key.  No two classes have equal keys; the keys are the
    distinct keys of the rows in first-seen order; a class holds the rows of
    its key in source order, rows of the same age included; and the classes
    together hold every kept row. *)
Theorem yield_classes_grouped (src : sources) (id : Z) (t : YieldTable) :
  get_yield_table src id = Ok t →
  ∃ krs,
    mapM keyed_row
      (filter (λ row, has_id id row = true)
              (DictReader (csv_path_yield_tables src))) = Ok krs
    ∧ (∀ row s, row !! "yield_class" = Some (Some s) →
         yield_class_of row =
           match py_int s with
           | Some z => Ok (PyInt z)
           | None =>
               match py_float s with
               | Some f => Ok (PyFloat f)
               | None => Raise (ValueError (InvalidLiteral s))
               end
           end)
    ∧ yield_classes (data t) = YieldClass_of_item <$> group_by_first_seen krs
    ∧ (∀ i j ci cj, i ≠ j →
         yield_classes (data t) !! i = Some ci →
         yield_classes (data t) !! j = Some cj →
         number_eqb (yield_class ci) (yield_class cj) = false)
    ∧ yield_class <$> yield_classes (data t) = first_seen [] krs.*1
    ∧ (∀ c, c ∈ yield_classes (data t) →
         number_eqb (yield_class c) (yield_class c) = true →
         rows c =
           (filter (λ kr, number_eqb (yield_class c) kr.1 = true) krs).*2)
    ∧ concat (rows <$> yield_classes (data t)) ≡ₚ krs.*2.
Proof.
  intros Ht. destruct (get_yield_table_Ok _ _ _ Ht) as (krs & _ & Hkrs & Hcl).
  exists krs. split; [done|]. split; [apply yield_class_of_Ok|].
  split; [done|]. rewrite Hcl. split; [|split; [|split]].
  - intros i j ci cj Hij Hi Hj.
    rewrite list_lookup_fmap in Hi, Hj.
    destruct (group_by_first_seen krs !! i) as [gi|] eqn:Ei; [|done].
    destruct (group_by_first_seen krs !! j) as [gj|] eqn:Ej; [|done].
    injection Hi as <-. injection Hj as <-. simpl.
    by apply (group_by_first_seen_distinct krs i j).
  - rewrite <- list_fmap_compose.
    transitivity ((group_by_first_seen krs).*1); [by apply list_fmap_ext|].
    by rewrite <- foldl_dict_step, foldl_dict_step_keys.
  - intros c Hc Hrefl.
    apply list_elem_of_fmap in Hc as ([k rs] & -> & Hin). simpl in *.
    by apply group_by_first_seen_rows.
  - rewrite <- list_fmap_compose, <- group_by_first_seen_perm.
    by erewrite list_fmap_ext.
Qed.

Lemma yield_classes_grouped_witness :
  ∃ t, get_yield_table dup_src 1 = Ok t
       ∧ yield_class <$> yield_classes (data t) =
           [PyInt 6; PyFloat (Num (15 # 2))]
       ∧ (λ c, age <$> rows c) <$> yield_classes (data t) =
           [[10; 10; 20]; [10]].
Proof.
  destruct (get_yield_table dup_src 1) as [t|] eqn:Ht; [|by vm_compute in Ht].
  exists t. split; [done|].
  destruct (yield_classes_grouped dup_src 1 t Ht)
    as (krs & Hkrs & _ & Hcl & _ & Hkeys & _ & _).
  vm_compute in Hkrs. injection Hkrs as <-.
  split.
  - rewrite Hkeys. reflexivity.
  - vm_compute in Ht. by injection Ht as <-.
Defined.

(** ** The rows of a table *)

Lemma elem_of_concat {A : Type} (x : A) (ls : list (list A)) :
  x ∈ concat ls ↔ ∃ l, x ∈ l ∧ l ∈ ls.
Proof.
  induction ls as [|l0 ls IH]; simpl.
  - split; [by intros ?%elem_of_nil|]. by intros (l & _ & ?%elem_of_nil).
  - rewrite elem_of_app, IH. split.
    + intros [H|(l & Hx & Hl)].
      * exists l0. split; [done|left].
      * exists l. split; [done|by right].
    + intros (l & Hx & [->|Hl]%elem_of_cons); [by left|].
      right. by exists l.
Qed.

Lemma get_yield_table_meta_id (src : sources) (id : Z) (m : YieldTableMeta) :
  get_yield_table_meta src id = Ok m → YieldTableMeta.id m = id.
Proof.
  unfold get_yield_table_meta. intros H. apply bind_Ok in H as (l & _ & H).
  by destruct (get_yield_table_meta_loop_Ok _ _ _ H) as (_ & _ & ? & _).
Qed.

Lemma has_id_true (id : Z) (row : gmap string (option string)) :
  has_id id row = true ↔ dict_getitem row "id" ≫= int_of_cell = Ok id.
Proof.
  unfold has_id. destruct (dict_getitem row "id" ≫= int_of_cell) as [z|e].
  - rewrite Z.eqb_eq. split; congruence.
  - done.
Qed.

(** C6: a returned table carries the requested id, and every row of every
    one of its classes was built from a line of the data file whose id cell
    holds that id. *)
Theorem rows_belong_to_table (src : sources) (id : Z) (t : YieldTable) :
  get_yield_table src id = Ok t →
  YieldTableMeta.id (meta t) = id
  ∧ ∀ c r, c ∈ yield_classes (data t) → r ∈ rows c →
      ∃ row, row ∈ DictReader (csv_path_yield_tables src)
             ∧ dict_getitem row "id" ≫= int_of_cell = Ok id
             ∧ YieldClassRow_of row = Ok r.
Proof.
  intros Ht. destruct (get_yield_table_Ok _ _ _ Ht) as (krs & Hm & Hkrs & Hcl).
  split; [by apply (get_yield_table_meta_id src)|].
  intros c r Hc Hr.
  assert (Hin : r ∈ krs.*2).
  { rewrite <- group_by_first_seen_perm. apply elem_of_concat.
    rewrite Hcl in Hc. apply list_elem_of_fmap in Hc as ([k rs] & -> & Hc).
    exists rs. split; [done|]. apply list_elem_of_fmap. by exists (k, rs). }
  apply list_elem_of_fmap in Hin as ([k r'] & -> & Hin). simpl.
  apply list_elem_of_lookup in Hin as [i Hi].
  apply mapM_Ok in Hkrs.
  destruct (Forall2_lookup_r _ _ _ _ _ Hkrs Hi) as (row & Hrow & Hkr).
  apply list_elem_of_lookup_2, list_elem_of_filter in Hrow as [Hid Hrow].
  exists row. split; [done|]. split; [by apply has_id_true|].
  unfold keyed_row in Hkr. apply bind_Ok in Hkr as (yc & _ & Hkr).
  apply bind_Ok in Hkr as (r0 & Hr0 & [= _ <-]). done.
Qed.

Lemma rows_belong_to_table_witness :
  ∃ t, get_yield_table ex_src 1 = Ok t
       ∧ YieldTableMeta.id (meta t) = 1
       ∧ length (concat (rows <$> yield_classes (data t))) = 5%nat
       ∧ length (DictReader (csv_path_yield_tables ex_src)) = 6%nat.
Proof.
  destruct (get_yield_table ex_src 1) as [t|] eqn:Ht; [|by vm_compute in Ht].
  exists t. split; [done|].
  destruct (rows_belong_to_table ex_src 1 t Ht) as [Hid _].
  split; [done|].
  vm_compute in Ht. injection Ht as <-. split; reflexivity.
Defined.

(** ** When a table loads, and how it fails *)

Lemma mapM_returns {A B : Type} (f : A → result B) (l : list A) :
  (∀ x, x ∈ l → ∃ y, f x = Ok y) → ∃ k, mapM f l = Ok k.
Proof.
  induction l as [|x l IH]; intros Hall; simpl; [by eexists|].
  destruct (Hall x) as [y ->]; [left|].
  destruct IH as [k ->]; [intros x' Hx'; apply Hall; by right|].
  by eexists.
Qed.

Lemma mapM_app_Raise {A B : Type} (f : A → result B) (l1 l2 : list A)
    (k : list B) (x : A) (e : exn) :
  mapM f l1 = Ok k → f x = Raise e → mapM f (l1 ++ x :: l2) = Raise e.
Proof.
  revert k. induction l1 as [|x1 l1 IH]; intros k; simpl.
  - intros _ ->. done.
  - intros H Hx. apply bind_Ok in H as (y & -> & H).
    apply bind_Ok in H as (k' & Hk' & _). simpl. by rewrite (IH _ Hk' Hx).
Qed.

Lemma filtered_data_returns (id : Z) (reader : list (gmap string (option string))) :
  (∀ row, row ∈ reader → ∃ z, dict_getitem row "id" ≫= int_of_cell = Ok z) →
  filtered_data id reader = Ok (filter (λ row, has_id id row = true) reader).
Proof.
  intros Hall.
  destruct (filtered_data id reader) as [kept|e] eqn:E.
  - by rewrite (filtered_data_Ok _ _ _ E).
  - exfalso. induction reader as [|row reader IH]; [done|]. simpl in E.
    destruct (Hall row) as [z Hz]; [left|].
    apply bind_Ok in Hz as (v & Hv & Hz). rewrite Hv in E. simpl in E.
    rewrite Hz in E. simpl in E.
    destruct (filtered_data id reader) as [rest|e'] eqn:E'; [done|].
    apply IH; [|done]. intros row' Hrow'. apply Hall. by right.
Qed.


(** C10: the three failures are [ValueError]s, and the handlers answer each
    of them with status 404.  An id that no metadata carries and an age cell
    that is not an integer both make [read_yield_table_data] answer that the
    table with the requested id was not found; a bracketing class that is
    not tabulated makes [read_interpolated_yield_table_data] answer that the
    class was not found. *)
Theorem failures_share_ValueError (src : sources) (id : Z) :
  (∀ l, get_yield_tables_meta src = Ok l →
        (∀ m, m ∈ l → YieldTableMeta.id m ≠ id) →
        get_yield_table_meta src id = Raise (ValueError (TableNotFound id))
        ∧ get_yield_table src id = Raise (ValueError (TableNotFound id))
        ∧ read_yield_table_data src id =
            HTTPException 404 (TableNotFoundMessage id))
  ∧ (∀ t q lo, get_yield_table src id = Ok t →
        int_of_float (Num q) = Ok lo →
        ¬ tabulated t lo ∨ ¬ tabulated t (lo + 1) →
        (∃ yc, get_interpolated_yield_table src id (Num q) =
                 Raise (ValueError (ClassNotFound yc id)))
        ∧ read_interpolated_yield_table_data src id (Num q) =
            HTTPException 404 (ClassNotFoundMessage (Num q)))
  ∧ (∀ m before row after krs yc s,
        get_yield_table_meta src id = Ok m →
        (∀ r, r ∈ DictReader (csv_path_yield_tables src) →
              ∃ z, dict_getitem r "id" ≫= int_of_cell = Ok z) →
        filter (λ r, has_id id r = true)
               (DictReader (csv_path_yield_tables src)) =
          before ++ row :: after →
        mapM keyed_row before = Ok krs →
        yield_class_of row = Ok yc →
        row !! "age" = Some (Some s) → py_int s = None →
        get_yield_table src id = Raise (ValueError (InvalidLiteral s))
        ∧ read_yield_table_data src id =
            HTTPException 404 (TableNotFoundMessage id)).
Proof.
  split; [|split].
  - intros l Hl Hno.
    assert (Hmeta : get_yield_table_meta src id =
                      Raise (ValueError (TableNotFound id))).
    { unfold get_yield_table_meta. rewrite Hl. simpl.
      by apply get_yield_table_meta_loop_none. }
    assert (Htable : get_yield_table src id =
                       Raise (ValueError (TableNotFound id))).
    { unfold get_yield_table. by rewrite Hmeta. }
    split; [done|]. split; [done|].
    unfold read_yield_table_data. by rewrite Htable.
  - intros t q lo Ht Hlo Hmiss.
    destruct (interpolation_class_lookup src id q t Ht)
      as (lo' & Hlo' & Hiff & _).
    assert (lo' = lo) as -> by congruence.
    apply Hiff in Hmiss as [yc Hyc]. split; [by exists yc|].
    unfold read_interpolated_yield_table_data. by rewrite Hyc.
  - intros m before row after krs yc s Hm Hids Hkept Hbefore Hyc Hage Hs.
    assert (Hrow : keyed_row row = Raise (ValueError (InvalidLiteral s))).
    { unfold keyed_row, YieldClassRow_of, dict_getitem.
      rewrite Hyc, Hage. simpl. by rewrite Hs. }
    assert (Htable : get_yield_table src id =
                       Raise (ValueError (InvalidLiteral s))).
    { unfold get_yield_table. rewrite Hm. simpl.
      rewrite (filtered_data_returns _ _ Hids). simpl.
      rewrite organize_keyed, Hkept.
      by rewrite (mapM_app_Raise _ _ _ _ _ _ Hbefore Hrow). }
    split; [done|]. unfold read_yield_table_data. by rewrite Htable.
Qed.

Lemma failures_share_ValueError_witness :
  read_yield_table_data ex_src 999 = HTTPException 404 (TableNotFoundMessage 999)
  ∧ get_yield_table bad_age_src 1 = Raise (ValueError (InvalidLiteral "ten"))
  ∧ read_yield_table_data bad_age_src 1 =
      HTTPException 404 (TableNotFoundMessage 1)
  ∧ read_interpolated_yield_table_data ex_src 1 (Num 7) =
      HTTPException 404 (ClassNotFoundMessage (Num 7)).
Proof.
  destruct (failures_share_ValueError ex_src 999) as (Hid & _ & _).
  destruct (failures_share_ValueError bad_age_src 1) as (_ & _ & Hage).
  destruct (failures_share_ValueError ex_src 1) as (_ & Hclass & _).
  assert (Hbad : get_yield_table bad_age_src 1 =
                   Raise (ValueError (InvalidLiteral "ten"))
                 ∧ read_yield_table_data bad_age_src 1 =
                     HTTPException 404 (TableNotFoundMessage 1)).
  { eapply (Hage _ [row_dict (fieldnames bad_age_data) ["1"; "6"; "10"; "5.0"]]
              (row_dict (fieldnames bad_age_data) ["1"; "6"; "ten"; "8.0"]) []
              _ _ "ten").
    - vm_compute. reflexivity.
    - intros r Hr.
      repeat (apply elem_of_cons in Hr as [->|Hr];
              [eexists; vm_compute; reflexivity|]).
      by apply elem_of_nil in Hr.
    - by vm_compute.
    - vm_compute. reflexivity.
    - vm_compute. reflexivity.
    - by vm_compute.
    - by vm_compute. }
  split; [|split; [apply Hbad|split; [apply Hbad|]]].
  - apply (Hid [ex_meta_1; ex_meta_2]); [by vm_compute|].
    intros m Hm.
    repeat (apply elem_of_cons in Hm as [->|Hm]; [discriminate|]).
    by apply elem_of_nil in Hm.
  - destruct (get_yield_table ex_src 1) as [t|] eqn:Ht; [|by vm_compute in Ht].
    apply (Hclass t 7%Q 7); [done|done|].
    right. vm_compute in Ht. injection Ht as <-. intros (c & Hin & Hc).
    repeat (apply elem_of_cons in Hin as [->|Hin]; [discriminate|]).
    by apply elem_of_nil in Hin.
Defined.

(** An interpolation returns when the two bracketing classes are found and
    no paired row lacks one of the ten measurements that are passed on as
    they are. *)
Lemma get_interpolated_yield_table_returns (src : sources) (id : Z)
    (target : float) (lo : Z) (lower_rows upper_rows : list YieldClassRow) :
  int_of_float target = Ok lo →
  get_yield_table_of_class src id lo = Ok lower_rows →
  get_yield_table_of_class src id (lo + 1) = Ok upper_rows →
  (∀ i lower_row upper_row f,
     lower_rows !! i = Some lower_row →
     upper_rows !! i = Some upper_row →
     f ≠ Current_annual_increment →
     is_Some (get_field f lower_row) ∧ is_Some (get_field f upper_row)) →
  ∃ res, get_interpolated_yield_table src id target = Ok res.
Proof.
  intros Hlo Hl Hu Hall. unfold get_interpolated_yield_table.
  rewrite Hlo. simpl. rewrite Hl. simpl. rewrite Hu. simpl.
  destruct (mapM_returns
              (λ p, interpolate_row target lo (lo + 1) p.1 p.2)
              (zip lower_rows upper_rows)) as [tbl ->]; [|by eexists].
  intros [lr ur] Hp. apply list_elem_of_lookup in Hp as [i Hp].
  apply lookup_zip_with_Some in Hp as (? & ? & [= <- <-] & Hlr & Hur).
  apply interpolate_row_returns. intros f Hf. by apply (Hall i).
Qed.

(** * Further properties of the loader, the interpolator and the handlers *)

(** ** Looking a class up *)

(** Every row of a key that equals itself has a group of an equal key. *)
Lemma group_by_first_seen_covers (l : list (number * YieldClassRow))
    (k : number) (r : YieldClassRow) :
  (k, r) ∈ l → number_eqb k k = true →
  ∃ k' rs, (k', rs) ∈ group_by_first_seen l ∧ number_eqb k' k = true.
Proof.
  intros Hin Hk. induction l as [|k0 r0 l IH] using group_ind.
  - by apply elem_of_nil in Hin.
  - rewrite group_by_first_seen_cons.
    destruct (number_eqb k0 k) eqn:E.
    + eexists _, _. split; [left|done].
    + apply elem_of_cons in Hin as [[= -> ->]|Hin]; [congruence|].
      destruct IH as (k' & rs & Hg & Hk').
      { apply list_elem_of_filter. split; [|done]. simpl. congruence. }
      exists k', rs. split; [by right|done].
Qed.

(** X1: [get_yield_table_of_class] returns exactly the rows of the kept lines
    whose key equals the class, in the order of the file, and raises when no
    kept line has such a key.  Keys are compared as numbers, so a line whose
    class is written [6.0] belongs to the class 6. *)
Theorem get_yield_table_of_class_rows (src : sources) (id yc : Z)
    (t : YieldTable) (krs : list (number * YieldClassRow)) :
  get_yield_table src id = Ok t →
  mapM keyed_row
    (filter (λ row, has_id id row = true)
            (DictReader (csv_path_yield_tables src))) = Ok krs →
  get_yield_table_of_class src id yc =
    match (filter (λ kr, number_eqb (PyInt yc) kr.1 = true) krs).*2 with
    | [] => Raise (ValueError (ClassNotFound yc id))
    | r :: rs => Ok (r :: rs)
    end.
Proof.
  intros Ht Hkrs.
  destruct (get_yield_table_Ok _ _ _ Ht) as (krs' & _ & Hkrs' & Hcl).
  assert (krs' = krs) as -> by congruence.
  rewrite (get_yield_table_of_class_eq _ _ _ _ Ht), Hcl.
  destruct (get_yield_table_of_class_loop id yc
              (YieldClass_of_item <$> group_by_first_seen krs))
    as [rs|e] eqn:E.
  - destruct (get_yield_table_of_class_loop_Ok _ _ _ _ E)
      as (i & c & Hi & Hc & <- & _).
    apply list_elem_of_lookup_2, list_elem_of_fmap in Hi as ([k rs] & -> & Hg).
    simpl in *.
    assert (Hrefl : number_eqb k k = true).
    { apply (number_eqb_trans k (PyInt yc) k); [done|].
      by rewrite number_eqb_sym. }
    destruct (group_by_first_seen_head _ _ _ Hg) as (r & rs' & Hrs & _).
    rewrite (group_by_first_seen_rows _ _ _ Hg Hrefl) in Hrs |- *.
    assert (Hsame : filter (λ kr, number_eqb (PyInt yc) kr.1 = true) krs =
                    filter (λ kr, number_eqb k kr.1 = true) krs).
    { apply list_filter_iff. intros [k' r']. simpl. split; intros Hk'.
      - by apply (number_eqb_trans k (PyInt yc) k').
      - apply (number_eqb_trans (PyInt yc) k k'); [|done].
        by rewrite number_eqb_sym. }
    rewrite Hsame, Hrs. done.
  - destruct (get_yield_table_of_class_loop_Raise _ _ _ _ E) as [-> Hno].
    destruct (filter (λ kr, number_eqb (PyInt yc) kr.1 = true) krs)
      as [|[k r] rest] eqn:Ef; [done|].
    assert (Hin : (k, r) ∈ filter (λ kr, number_eqb (PyInt yc) kr.1 = true) krs)
      by (rewrite Ef; left).
    apply list_elem_of_filter in Hin as [Hk Hin]. simpl in Hk.
    assert (Hrefl : number_eqb k k = true).
    { apply (number_eqb_trans k (PyInt yc) k); [|done].
      by rewrite number_eqb_sym. }
    destruct (group_by_first_seen_covers _ _ _ Hin Hrefl) as (k' & rs & Hg & Hk').
    assert (Hc : YieldClass_of_item (k', rs)
                   ∈ YieldClass_of_item <$> group_by_first_seen krs)
      by (by apply list_elem_of_fmap_2).
    apply Hno in Hc. simpl in Hc.
    rewrite (number_eqb_trans k' k (PyInt yc)) in Hc; [done..|].
    by rewrite number_eqb_sym.
Qed.

Lemma get_yield_table_of_class_rows_witness :
  ∃ rs, get_yield_table_of_class dup_src 1 6 = Ok rs
        ∧ age <$> rs = [10; 10; 20]
        ∧ dominant_height <$> rs =
            [Some (Num 5); Some (Num (51 # 10)); Some (Num 8)].
Proof.
  destruct (get_yield_table dup_src 1) as [t|] eqn:Ht; [|by vm_compute in Ht].
  destruct (mapM keyed_row
              (filter (λ row, has_id 1 row = true)
                      (DictReader (csv_path_yield_tables dup_src))))
    as [krs|] eqn:Hkrs; [|by vm_compute in Hkrs].
  rewrite (get_yield_table_of_class_rows dup_src 1 6 t krs Ht Hkrs).
  vm_compute in Hkrs. injection Hkrs as <-.
  eexists. split; [by vm_compute|]. split; by vm_compute.
Defined.

(** ** When a table loads *)

Lemma int_of_cell_Ok (v : option string) (z : Z) :
  int_of_cell v = Ok z ↔ ∃ s, v = Some s ∧ py_int s = Some z.
Proof.
  destruct v as [s|]; simpl.
  - destruct (py_int s) as [z'|] eqn:E; split.
    + intros [= <-]. by exists s.
    + intros (s' & [= <-] & Hs). congruence.
    + done.
    + intros (s' & [= <-] & Hs). congruence.
  - split; [done|]. by intros (s & ? & _).
Qed.

Lemma dict_getitem_Ok (row : gmap string (option string)) (key : string)
    (v : option string) :
  dict_getitem row key = Ok v ↔ row !! key = Some v.
Proof.
  unfold dict_getitem. destruct (row !! key); split; congruence.
Qed.




(** X3: A table that the metadata lists and of which the data file holds no
    line loads with no yield class, and every interpolation in it raises for
    the lower bracketing class. *)
Theorem table_without_lines (src : sources) (id : Z) (m : YieldTableMeta) :
  get_yield_table_meta src id = Ok m →
  (∀ row, row ∈ DictReader (csv_path_yield_tables src) →
     ∃ s z, row !! "id" = Some (Some s) ∧ py_int s = Some z ∧ z ≠ id) →
  get_yield_table src id = Ok {| meta := m; data := {| yield_classes := [] |} |}
  ∧ ∀ q, ∃ lower_yield_class,
      int_of_float (Num q) = Ok lower_yield_class
      ∧ get_interpolated_yield_table src id (Num q) =
          Raise (ValueError (ClassNotFound lower_yield_class id)).
Proof.
  intros Hm Hrows.
  assert (Hnone : filter (λ row, has_id id row = true)
                    (DictReader (csv_path_yield_tables src)) = []).
  { induction (DictReader (csv_path_yield_tables src)) as [|row l IH]; [done|].
    destruct (Hrows row) as (s & z & Hs & Hz & Hne); [left|].
    rewrite filter_cons_False.
    - apply IH. intros row' Hrow'. apply Hrows. by right.
    - unfold has_id, dict_getitem. rewrite Hs. simpl. rewrite Hz.
      by destruct (Z.eqb_spec z id). }
  assert (Ht : get_yield_table src id =
                 Ok {| meta := m; data := {| yield_classes := [] |} |}).
  { unfold get_yield_table. rewrite Hm. simpl.
    rewrite filtered_data_returns, Hnone; [done|].
    intros row Hrow. destruct (Hrows row Hrow) as (s & z & Hs & Hz & _).
    exists z. unfold dict_getitem. rewrite Hs. simpl. by rewrite Hz. }
  split; [done|]. intros q.
  destruct (int_of_float (Num q)) as [lo|] eqn:Hlo; [|done].
  exists lo. split; [done|].
  unfold get_interpolated_yield_table, get_yield_table_of_class.
  rewrite Hlo. simpl. by rewrite Ht.
Qed.

Lemma table_without_lines_witness :
  ∃ m, get_yield_table absent_src 2 =
         Ok {| meta := m; data := {| yield_classes := [] |} |}
       ∧ get_interpolated_yield_table absent_src 2 (Num (13 # 2)) =
           Raise (ValueError (ClassNotFound 6 2)).
Proof.
  destruct (get_yield_table_meta absent_src 2) as [m|] eqn:Hm;
    [|by vm_compute in Hm].
  exists m. destruct (table_without_lines absent_src 2 m Hm) as [Ht Hq].
  - intros row Hrow.
    repeat (apply elem_of_cons in Hrow as [->|Hrow];
            [exists "1", 1; by vm_compute|]).
    by apply elem_of_nil in Hrow.
  - split; [done|]. destruct (Hq (13 # 2)%Q) as (lo & [= <-] & H). done.
Defined.

(** ** When an interpolation returns, and what it returns at a class *)

Lemma np_interp_Ok (x : float) (xp0 xp1 : Z) (fp0 fp1 : option float) (v : float) :
  np_interp x xp0 xp1 fp0 fp1 = Ok v → is_Some fp0 ∧ is_Some fp1.
Proof. destruct fp0, fp1; simpl; done. Qed.

(** A returned interpolation found both classes, and no pair of rows
    lacked a measurement that is passed on as it is. *)
Lemma get_interpolated_yield_table_Ok_present (src : sources) (id : Z)
    (target : float) (res : YieldClass) :
  get_interpolated_yield_table src id target = Ok res →
  ∃ lo lower_rows upper_rows,
    int_of_float target = Ok lo
    ∧ get_yield_table_of_class src id lo = Ok lower_rows
    ∧ get_yield_table_of_class src id (lo + 1) = Ok upper_rows
    ∧ ∀ i lower_row upper_row f,
        lower_rows !! i = Some lower_row →
        upper_rows !! i = Some upper_row →
        f ≠ Current_annual_increment →
        is_Some (get_field f lower_row) ∧ is_Some (get_field f upper_row).
Proof.
  intros H.
  destruct (get_interpolated_yield_table_Ok _ _ _ _ H)
    as (lo & lrows & urows & Hlo & Hl & Hu & _ & Hrows).
  exists lo, lrows, urows. split; [done|]. split; [done|]. split; [done|].
  intros i lower_row upper_row f Hlr Hur Hfield.
  assert (Hp : zip lrows urows !! i = Some (lower_row, upper_row)).
  { apply lookup_zip_with_Some. by exists lower_row, upper_row. }
  destruct (Forall2_lookup_l _ _ _ _ _ Hrows Hp) as (r & _ & Hr).
  destruct (interpolate_row_Ok _ _ _ _ _ _ Hr) as [_ Hf].
  destruct (Hf f) as (v & _ & Hv). apply np_interp_Ok in Hv.
  by destruct f.
Qed.

(** X4: [get_interpolated_yield_table] returns exactly when the target is
    finite, its two bracketing classes are found, and no pair of rows lacks
    one of the ten measurements other than the current annual increment. *)
Theorem get_interpolated_yield_table_returns_iff (src : sources) (id : Z)
    (target : float) :
  (∃ res, get_interpolated_yield_table src id target = Ok res) ↔
  ∃ lo lower_rows upper_rows,
    int_of_float target = Ok lo
    ∧ get_yield_table_of_class src id lo = Ok lower_rows
    ∧ get_yield_table_of_class src id (lo + 1) = Ok upper_rows
    ∧ ∀ i lower_row upper_row f,
        lower_rows !! i = Some lower_row →
        upper_rows !! i = Some upper_row →
        f ≠ Current_annual_increment →
        is_Some (get_field f lower_row) ∧ is_Some (get_field f upper_row).
Proof.
  split.
  - intros [res H]. by apply (get_interpolated_yield_table_Ok_present _ _ _ res).
  - intros (lo & lrows & urows & Hlo & Hl & Hu & Hall).
    by apply (get_interpolated_yield_table_returns src id target lo lrows urows).
Qed.









(** ** What the handlers answer *)

(** X8: A target that is NaN is answered with 404, and an infinite one with an
    exception that the handler does not catch; no file is read for
    either. *)
Theorem target_not_finite (src : sources) (id : Z) :
  get_interpolated_yield_table src id NaN = Raise (ValueError NaNToInteger)
  ∧ read_interpolated_yield_table_data src id NaN =
      HTTPException 404 (ClassNotFoundMessage NaN)
  ∧ ∀ neg,
      get_interpolated_yield_table src id (Inf neg) = Raise OverflowError
      ∧ read_interpolated_yield_table_data src id (Inf neg) =
          Uncaught OverflowError.
Proof. done. Qed.

(** X9: A table that the metadata does not list is answered by the
    interpolation handler with 404 and the message that the yield class, not
    the table, was not found. *)
Theorem read_interpolated_unknown_table (src : sources) (id : Z) (q : Q)
    (l : list YieldTableMeta) :
  get_yield_tables_meta src = Ok l →
  (∀ m, m ∈ l → YieldTableMeta.id m ≠ id) →
  get_interpolated_yield_table src id (Num q) =
    Raise (ValueError (TableNotFound id))
  ∧ read_interpolated_yield_table_data src id (Num q) =
      HTTPException 404 (ClassNotFoundMessage (Num q)).
Proof.
  intros Hl Hno.
  assert (H : get_interpolated_yield_table src id (Num q) =
                Raise (ValueError (TableNotFound id))).
  { unfold get_interpolated_yield_table, get_yield_table_of_class,
      get_yield_table, get_yield_table_meta.
    simpl. rewrite Hl. simpl.
    by rewrite (get_yield_table_meta_loop_none _ _ Hno). }
  split; [done|]. unfold read_interpolated_yield_table_data. by rewrite H.
Qed.

Lemma read_interpolated_unknown_table_witness :
  read_interpolated_yield_table_data ex_src 999 (Num (13 # 2)) =
    HTTPException 404 (ClassNotFoundMessage (Num (13 # 2))).
Proof.
  apply (read_interpolated_unknown_table ex_src 999 (13 # 2)
           [ex_meta_1; ex_meta_2]); [by vm_compute|].
  intros m Hm.
  repeat (apply elem_of_cons in Hm as [->|Hm]; [discriminate|]).
  by apply elem_of_nil in Hm.
Defined.

(** X10: The interpolation handler does not catch the failure on an absent
    measurement: where both bracketing classes are found and a pair of rows
    lacks a measurement other than the current annual increment, the
    [TypeError] leaves the handler, and no 404 is answered. *)
Theorem read_interpolated_absent_measurement (src : sources) (id : Z)
    (target : float) (lo : Z) (lower_rows upper_rows : list YieldClassRow)
    (i : nat) (lower_row upper_row : YieldClassRow) (f : field) :
  int_of_float target = Ok lo →
  get_yield_table_of_class src id lo = Ok lower_rows →
  get_yield_table_of_class src id (lo + 1) = Ok upper_rows →
  lower_rows !! i = Some lower_row →
  upper_rows !! i = Some upper_row →
  f ≠ Current_annual_increment →
  get_field f lower_row = None ∨ get_field f upper_row = None →
  read_interpolated_yield_table_data src id target = Uncaught TypeError.
Proof.
  intros Hlo Hl Hu Hlr Hur Hf Habs.
  unfold read_interpolated_yield_table_data.
  destruct (get_interpolated_yield_table src id target) as [res|e] eqn:E.
  - exfalso.
    destruct (get_interpolated_yield_table_Ok_present _ _ _ _ E)
      as (lo' & lrows & urows & Hlo' & Hl' & Hu' & Hall).
    assert (lo' = lo) as -> by congruence.
    assert (lrows = lower_rows) as -> by congruence.
    assert (urows = upper_rows) as -> by congruence.
    destruct (Hall i lower_row upper_row f Hlr Hur Hf) as [[? Ha] [? Hb]].
    destruct Habs; congruence.
  - by rewrite (get_interpolated_yield_table_Raise _ _ _ _ _ _ _ Hlo Hl Hu E).
Qed.

Lemma read_interpolated_absent_measurement_witness :
  read_interpolated_yield_table_data absent_src 1 (Num (13 # 2)) =
    Uncaught TypeError.
Proof.
  destruct (get_yield_table_of_class absent_src 1 6) as [lrows|] eqn:El;
    [|by vm_compute in El].
  destruct (get_yield_table_of_class absent_src 1 (6 + 1)) as [urows|] eqn:Eu;
    [|by vm_compute in Eu].
  pose proof El as El'. pose proof Eu as Eu'.
  vm_compute in El'. injection El' as <-.
  vm_compute in Eu'. injection Eu' as <-.
  eapply (read_interpolated_absent_measurement absent_src 1 (Num (13 # 2)) 6
            _ _ 0%nat _ _ Dominant_height);
    [reflexivity|exact El|exact Eu|reflexivity|reflexivity|discriminate|].
  by left.
Defined.

(** ** The metadata list *)

Lemma zip_restval_names (names cells : list string) :
  (zip_restval names cells).*1 = names.
Proof.
  revert cells. induction names as [|n names IH]; intros [|c cells]; simpl;
    by rewrite ?IH.
Qed.


Lemma foldl_insert_not_in (l : list (string * option string))
    (d : gmap string (option string)) (k : string) :
  k ∉ l.*1 → foldl (λ d kv, <[kv.1 := kv.2]> d) d l !! k = d !! k.
Proof.
  revert d. induction l as [|[k' v] l IH]; intros d Hk; [done|].
  simpl in *. apply not_elem_of_cons in Hk as [Hne Hk].
  rewrite IH by done. by rewrite lookup_insert_ne.
Qed.


(** A name that the header lacks is no key of a line's dictionary. *)
Lemma row_dict_not_in (names cells : list string) (k : string) :
  k ∉ names → row_dict names cells !! k = None.
Proof.
  intros Hk. unfold row_dict.
  rewrite foldl_insert_not_in by (by rewrite zip_restval_names). done.
Qed.


(** The id of built metadata is the integer that the id cell holds; the
    default 0 of [row.get("id", 0)] never reaches a result. *)
Lemma YieldTableMeta_of_row_id (src : sources)
    (row : gmap string (option string)) (m : YieldTableMeta) :
  YieldTableMeta_of_row src row = Ok m →
  ∃ s, row !! "id" = Some (Some s) ∧ py_int s = Some (YieldTableMeta.id m).
Proof.
  unfold YieldTableMeta_of_row. intros H.
  apply bind_Ok in H as (id' & Hid & H).
  apply bind_Ok in H as (ycs & _ & H).
  apply bind_Ok in H as (ast & _ & H).
  apply bind_Ok in H as (v & Hv%dict_getitem_Ok & H).
  apply bind_Ok in H as (kv & Hkv & [= <-]). simpl.
  rewrite Hv in Hid. apply int_of_cell_Ok in Hid as (s & -> & Hs).
  by exists s.
Qed.

(** X11: [get_yield_tables_meta] returns one element per line of the metadata
    file that is not empty, in the order of the file, and the id of each is
    the integer in the id cell of its line. *)
Theorem get_yield_tables_meta_in_file_order (src : sources)
    (l : list YieldTableMeta) :
  get_yield_tables_meta src = Ok l →
  length l = length (filter (λ cells, cells ≠ []) (records (csv_path_meta src)))
  ∧ Forall2 (λ row m, ∃ s, row !! "id" = Some (Some s)
                           ∧ py_int s = Some (YieldTableMeta.id m))
      (DictReader (csv_path_meta src)) l.
Proof.
  intros Hl. apply mapM_Ok in Hl. split.
  - rewrite <- (Forall2_length _ _ _ Hl). unfold DictReader.
    by rewrite length_fmap.
  - eapply Forall2_impl; [exact Hl|]. intros row m Hm.
    by apply (YieldTableMeta_of_row_id src).
Qed.

Lemma get_yield_tables_meta_in_file_order_witness :
  ∃ l, get_yield_tables_meta ex_src = Ok l
       ∧ length l = 2%nat
       ∧ YieldTableMeta.id <$> l = [1; 2].
Proof.
  destruct (get_yield_tables_meta ex_src) as [l|] eqn:Hl; [|by vm_compute in Hl].
  exists l. split; [done|].
  destruct (get_yield_tables_meta_in_file_order ex_src l Hl) as [Hlen _].
  split; [exact Hlen|]. vm_compute in Hl. by injection Hl as <-.
Defined.

(** X12: Metadata whose header has no id column never loads: as soon as the file
    has a line, [get_yield_tables_meta] raises, with the [KeyError] for the
    id or with the [ValueError] of a step cell of the first line. *)
Theorem get_yield_tables_meta_without_id_column (src : sources) :
  "id" ∉ fieldnames (csv_path_meta src) →
  DictReader (csv_path_meta src) ≠ [] →
  ∃ e, get_yield_tables_meta src = Raise e
       ∧ (e = KeyError "id" ∨ ∃ s, e = ValueError (InvalidLiteral s)).
Proof.
  intros Hno Hne. unfold get_yield_tables_meta.
  assert (Hrows : ∀ row, row ∈ DictReader (csv_path_meta src) → row !! "id" = None).
  { intros row (cells & -> & _)%list_elem_of_fmap. by apply row_dict_not_in. }
  destruct (DictReader (csv_path_meta src)) as [|row rest]; [done|].
  assert (Hid : row !! "id" = None) by (apply Hrows; left).
  assert (Hrow : ∃ e, YieldTableMeta_of_row src row = Raise e
                 ∧ (e = KeyError "id" ∨ ∃ s, e = ValueError (InvalidLiteral s))).
  { unfold YieldTableMeta_of_row. rewrite Hid. simpl.
    assert (Hstep : ∀ key, truthy (dict_get row key) = true →
              ∃ s, dict_getitem row key = Ok (Some s)).
    { intros key Ht. unfold dict_get, dict_getitem in *.
      destruct (row !! key) as [[s|]|]; try done. by exists s. }
    destruct (truthy (dict_get row "yield_class_step")) eqn:Ey.
    - destruct (Hstep _ Ey) as [s ->]. simpl.
      destruct (py_float s); simpl; [|eexists; split; [done|right; by eexists]].
      destruct (truthy (dict_get row "age_step")) eqn:Ea.
      + destruct (Hstep _ Ea) as [a ->]. simpl.
        destruct (py_int a); simpl; [|eexists; split; [done|right; by eexists]].
        unfold dict_getitem. rewrite Hid. simpl. eexists. split; [done|by left].
      + simpl. unfold dict_getitem. rewrite Hid. simpl.
        eexists. split; [done|by left].
    - simpl. destruct (truthy (dict_get row "age_step")) eqn:Ea.
      + destruct (Hstep _ Ea) as [a ->]. simpl.
        destruct (py_int a); simpl; [|eexists; split; [done|right; by eexists]].
        unfold dict_getitem. rewrite Hid. simpl. eexists. split; [done|by left].
      + simpl. unfold dict_getitem. rewrite Hid. simpl.
        eexists. split; [done|by left]. }
  destruct Hrow as (e & He & Hkind). exists e. split; [|done].
  change (mapM (YieldTableMeta_of_row src) (row :: rest)) with
    (y ← YieldTableMeta_of_row src row;
     k ← mapM (YieldTableMeta_of_row src) rest; Ok (y :: k)).
  by rewrite He.
Qed.

Lemma get_yield_tables_meta_without_id_column_witness :
  get_yield_tables_meta no_id_src = Raise (KeyError "id").
Proof.
  destruct (get_yield_tables_meta_without_id_column no_id_src)
    as (e & He & Hkind).
  - intros Hin.
    repeat (apply elem_of_cons in Hin as [Hin|Hin]; [discriminate|]).
    by apply elem_of_nil in Hin.
  - by vm_compute.
  - rewrite He. vm_compute in He. by injection He as <-.
Defined.

(** ** Country codes *)

Lemma split_not_nil (sep : ascii) (s : string) : split sep s ≠ [].
Proof.
  destruct s as [|c s]; simpl; [done|].
  destruct (bool_decide (c = sep)); [done|]. by destruct (split sep s).
Qed.

(** Joining the pieces with the separator gives the text back. *)
Lemma concat_split (sep : ascii) (s : string) :
  String.concat (String sep "") (split sep s) = s.
Proof.
  induction s as [|c s IH]; [done|]. simpl.
  pose proof (split_not_nil sep s) as Hne.
  destruct (split sep s) as [|w ws] eqn:E; [done|].
  destruct (bool_decide_reflect (c = sep)) as [->|_].
  - simpl in *. by rewrite IH.
  - simpl in *. destruct ws; simpl in *; by rewrite <- IH.
Qed.

(** No piece holds the separator. *)
Lemma split_no_sep (sep : ascii) (s : string) :
  Forall (λ w, ¬ In sep (list_ascii_of_string w)) (split sep s).
Proof.
  induction s as [|c s IH]; simpl.
  - constructor; [by intros []|constructor].
  - destruct (bool_decide_reflect (c = sep)) as [->|Hne].
    + constructor; [by intros []|done].
    + destruct (split sep s) as [|w ws]; [constructor; [|constructor]|].
      * simpl. intros [?|[]]. done.
      * apply Forall_cons in IH as [Hw Hws]. constructor; [|done].
        simpl. intros [?|?]; done.
Qed.

(** X13: The country codes of every element of the list are the pieces of the
    cell between its commas: joined with commas they give the cell back, and
    none holds a comma.  An empty or missing cell gives no code. *)
Theorem country_codes_of_cell (src : sources) (l : list YieldTableMeta) :
  get_yield_tables_meta src = Ok l →
  Forall2 (λ row m,
      match dict_get row "country_codes" with
      | Some (String c s) =>
          String.concat "," (YieldTableMeta.country_codes m) = String c s
          ∧ YieldTableMeta.country_codes m ≠ []
          ∧ Forall (λ w, ¬ In ","%char (list_ascii_of_string w))
              (YieldTableMeta.country_codes m)
      | _ => YieldTableMeta.country_codes m = []
      end)
    (DictReader (csv_path_meta src)) l.
Proof.
  intros Hl. apply mapM_Ok in Hl. eapply Forall2_impl; [exact Hl|].
  intros row m H. unfold YieldTableMeta_of_row in H.
  apply bind_Ok in H as (id' & _ & H).
  apply bind_Ok in H as (ycs & _ & H).
  apply bind_Ok in H as (ast & _ & H).
  apply bind_Ok in H as (v & _ & H).
  apply bind_Ok in H as (kv & _ & [= <-]). simpl.
  unfold dict_get, dict_get_default.
  destruct (row !! "country_codes") as [[[|c s]|]|]; simpl; try done.
  split; [apply (concat_split "," (String c s))|].
  split; [apply (split_not_nil "," (String c s))|].
  apply (split_no_sep "," (String c s)).
Qed.

Lemma country_codes_of_cell_witness :
  ∃ m1 m2, get_yield_tables_meta ex_src = Ok [m1; m2]
           ∧ YieldTableMeta.country_codes m1 = ["AT"; "DE"]
           ∧ String.concat "," (YieldTableMeta.country_codes m1) = "AT,DE".
Proof.
  exists ex_meta_1, ex_meta_2.
  assert (Hl : get_yield_tables_meta ex_src = Ok [ex_meta_1; ex_meta_2])
    by (by vm_compute).
  split; [done|]. split; [done|].
  pose proof (country_codes_of_cell ex_src _ Hl) as Hcodes.
  destruct (Forall2_lookup_r _ _ _ 0%nat ex_meta_1 Hcodes eq_refl)
    as (row & Hrow & Hm).
  vm_compute in Hrow. injection Hrow as <-.
  change (dict_get _ "country_codes") with (Some "AT,DE") in Hm.
  by destruct Hm as [Hjoin _].
Defined.

(** ** Complete files *)









(** ** No class without rows *)

(** X15: Every yield class of a returned table has a row, so a class that is
    found has rows, and a returned interpolation has a row. *)
Theorem classes_have_rows (src : sources) (id : Z) :
  (∀ t c, get_yield_table src id = Ok t →
          c ∈ yield_classes (data t) → rows c ≠ [])
  ∧ (∀ yc rs, get_yield_table_of_class src id yc = Ok rs → rs ≠ [])
  ∧ (∀ target res, get_interpolated_yield_table src id target = Ok res →
                   rows res ≠ []).
Proof.
  assert (Hclass : ∀ t c, get_yield_table src id = Ok t →
            c ∈ yield_classes (data t) → rows c ≠ []).
  { intros t c Ht Hc.
    destruct (get_yield_table_Ok _ _ _ Ht) as (krs & _ & _ & Hcl).
    rewrite Hcl in Hc. apply list_elem_of_fmap in Hc as ([k rs] & -> & Hg).
    by destruct (group_by_first_seen_head _ _ _ Hg) as (r & rs' & -> & _). }
  assert (Hlookup : ∀ yc rs, get_yield_table_of_class src id yc = Ok rs →
            rs ≠ []).
  { intros yc rs H. unfold get_yield_table_of_class in H.
    apply bind_Ok in H as (t & Ht & H).
    destruct (get_yield_table_of_class_loop_Ok _ _ _ _ H)
      as (i & c & Hi & _ & <- & _).
    apply (Hclass t c Ht). by apply list_elem_of_lookup_2 in Hi. }
  split; [done|]. split; [done|].
  intros target res H.
  destruct (get_interpolated_yield_table_Ok _ _ _ _ H)
    as (lo & lrows & urows & _ & Hl & Hu & _ & Hrows).
  apply Hlookup in Hl, Hu.
  destruct lrows as [|lr lrows]; [done|]. destruct urows as [|ur urows]; [done|].
  simpl in Hrows. by inversion Hrows.
Qed.
